(** * Weather dashboard: a shallow embedding of [app.js]

    The development follows the layout of the source file:

    - JavaScript values as the code meets them ([undefined], [null],
      numbers), array indexing, [Math.round], [String.prototype.trim];
    - the weather-code mapper ([weatherCodeToText], [makeIconImg]);
    - the page (the DOM regions the script writes to, the session variable
      [lastLocation]) and a state-and-exception monad for the handlers;
    - the two API helpers ([geocodeCity], [fetchWeather]) over a network
      given as an oracle, every call to [fetch] being logged;
    - the two renderers ([renderCurrent], [renderForecast]), the HTML parser
      of the browser being an oracle where the heading holds markup;
    - the three event handlers (form submit, geolocation click, unit
      toggle change);
    - the properties. *)

From stdpp Require Import gmap strings list.
From Stdlib Require Import QArith Qround.

#[local] Open Scope Z_scope.
#[local] Open Scope string_scope.

(** ** JavaScript values *)

Module Js.

(** A value read from a JSON document or from an array slot: [undefined]
    (absent property, index out of range), [null], or a proper value. *)
Inductive js (A : Type) : Type :=
| Undefined
| Null
| Val (a : A).
#[global] Arguments Undefined {A}.
#[global] Arguments Null {A}.
#[global] Arguments Val {A} a.

(** [arr[i]]: out of range yields [undefined], it does not raise. *)
Definition index {A} (arr : list (js A)) (i : nat) : js A :=
  default Undefined (arr !! i).

(** The result of [Math.round]: an integer or [NaN]. *)
Inductive rounded : Type :=
| RNaN
| RInt (z : Z).

(** [Math.round(x)]: the nearest integer, ties towards plus infinity;
    [null] converts to [0] and [undefined] to [NaN]. *)
Definition Math_round (x : js Q) : rounded :=
  match x with
  | Undefined => RNaN
  | Null => RInt 0
  | Val q => RInt (Qfloor (q + (1 # 2))%Q)
  end.

(** [Number.isFinite(x) ? Some x : None]. *)
Definition finite (x : js Q) : option Q :=
  match x with
  | Val q => Some q
  | _ => None
  end.

(** [arr.includes(code)] for an array literal of integers. *)
Definition includes (arr : list Z) (code : js Z) : bool :=
  match code with
  | Val z => bool_decide (z ∈ arr)
  | _ => false
  end.

(** Strings that come from a text input are sequences of UTF-16 code
    units; [trim] removes the ECMAScript white space and line terminator
    code points from both ends. *)
Definition jsstring : Type := list Z.

Definition white_space : list Z :=
  [ 0x0009; 0x000A; 0x000B; 0x000C; 0x000D; 0x0020; 0x00A0; 0x1680;
    0x2000; 0x2001; 0x2002; 0x2003; 0x2004; 0x2005; 0x2006; 0x2007;
    0x2008; 0x2009; 0x200A; 0x2028; 0x2029; 0x202F; 0x205F; 0x3000;
    0xFEFF ].

Definition is_white_space (c : Z) : bool := bool_decide (c ∈ white_space).

Fixpoint trim_start (s : jsstring) : jsstring :=
  match s with
  | c :: s' => if is_white_space c then trim_start s' else s
  | [] => []
  end.

Definition trim_end (s : jsstring) : jsstring :=
  reverse (trim_start (reverse s)).

Definition trim (s : jsstring) : jsstring := trim_end (trim_start s).

(** Surrogate code units. *)
Definition is_high_surrogate (c : Z) : bool := bool_decide (0xD800 ≤ c ≤ 0xDBFF)%Z.
Definition is_low_surrogate (c : Z) : bool := bool_decide (0xDC00 ≤ c ≤ 0xDFFF)%Z.

(** [s.isWellFormed()]: every high surrogate is followed by a low one and
    every low surrogate preceded by a high one. [encodeURIComponent] throws
    a [URIError] on a string that is not well formed. *)
Fixpoint isWellFormed (s : jsstring) : bool :=
  match s with
  | [] => true
  | c :: rest =>
      if is_low_surrogate c then false
      else if is_high_surrogate c then
        match rest with
        | c' :: rest' => is_low_surrogate c' && isWellFormed rest'
        | [] => false
        end
      else isWellFormed rest
  end.

(** [!s] for a string: only the empty string is falsy. *)
Definition falsy (s : jsstring) : bool :=
  match s with
  | [] => true
  | _ => false
  end.

End Js.
Import Js.

(** ** Icon / text mapping *)

Definition placeholder : string := "—".

(** The object literal of [weatherCodeToText], keyed by the integer code. *)
Definition code_map : gmap Z string :=
  <[0 := "Clear sky"]> (
  <[1 := "Mainly clear"]> (
  <[2 := "Partly cloudy"]> (
  <[3 := "Overcast"]> (
  <[45 := "Fog"]> (
  <[48 := "Depositing rime fog"]> (
  <[51 := "Light drizzle"]> (
  <[53 := "Moderate drizzle"]> (
  <[55 := "Dense drizzle"]> (
  <[56 := "Freezing drizzle"]> (
  <[57 := "Freezing drizzle (dense)"]> (
  <[61 := "Slight rain"]> (
  <[63 := "Moderate rain"]> (
  <[65 := "Heavy rain"]> (
  <[66 := "Freezing rain (light)"]> (
  <[67 := "Freezing rain (heavy)"]> (
  <[71 := "Slight snow"]> (
  <[73 := "Moderate snow"]> (
  <[75 := "Heavy snow"]> (
  <[77 := "Snow grains"]> (
  <[80 := "Rain showers (slight)"]> (
  <[81 := "Rain showers (moderate)"]> (
  <[82 := "Rain showers (violent)"]> (
  <[85 := "Snow showers (slight)"]> (
  <[86 := "Snow showers (heavy)"]> (
  <[95 := "Thunderstorm"]> (
  <[96 := "Thunderstorm with slight hail"]> (
  <[99 := "Thunderstorm with heavy hail"]> ∅))))))))))))))))))))))))))).

(** [map[code] ?? '—']: a code that is [undefined] or [null] is looked up
    under the key ["undefined"] or ["null"], which the literal lacks. *)
Definition weatherCodeToText (code : js Z) : string :=
  match code with
  | Val z => default placeholder (code_map !! z)
  | _ => placeholder
  end.

Module Glyph.
Definition fallback : string := "🌡️".
Definition sun : string := "☀️".
Definition moon : string := "🌙".
Definition partly_cloudy : string := "⛅".
Definition cloud : string := "☁️".
Definition fog : string := "🌫️".
Definition drizzle : string := "🌦️".
Definition rain : string := "🌧️".
Definition freezing_rain : string := "🌧️❄️".
Definition snow : string := "❄️".
Definition thunderstorm : string := "⛈️".
End Glyph.

(** The [span] element [makeIconImg] creates. *)
Record span : Type := Span { textContent : string; fontSize : string }.

Definition makeIconImg (code : js Z) (isDay : bool) : span :=
  let emoji :=
    if includes [0] code then (if isDay then Glyph.sun else Glyph.moon)
    else if includes [1; 2] code then Glyph.partly_cloudy
    else if includes [3] code then Glyph.cloud
    else if includes [45; 48] code then Glyph.fog
    else if includes [51; 53; 55] code then Glyph.drizzle
    else if includes [61; 63; 65; 80; 81; 82] code then Glyph.rain
    else if includes [66; 67] code then Glyph.freezing_rain
    else if includes [71; 73; 75; 77; 85; 86] code then Glyph.snow
    else if includes [95; 96; 99] code then Glyph.thunderstorm
    else Glyph.fallback in
  {| textContent := emoji; fontSize := "1.4rem" |}.

(** The set of codes the specification documents. *)
Definition documented_codes : list Z :=
  [0; 1; 2; 3; 45; 48; 51; 53; 55; 56; 57; 61; 63; 65; 66; 67; 71; 73; 75;
   77; 80; 81; 82; 85; 86; 95; 96; 99].

(** ** Data exchanged with the two endpoints *)

(** A resolved place, as [geocodeCity] returns it and [lastLocation] keeps
    it. Coordinates are finite doubles, embedded in the rationals. *)
Record location : Type := Location {
  name : string;
  country : string;
  latitude : Q;
  longitude : Q;
}.

(** The body of a geocoding response: [results] may be absent. *)
Record geo_json : Type := GeoJson { results : option (list location) }.

Module Current.
(** [data.current_weather]. *)
Record t : Type := Make {
  temperature : js Q;
  windspeed : js Q;
  weathercode : js Z;
  is_day : js Z;
  time : js string;
}.
End Current.

Module Daily.
(** [data.daily]: parallel sequences, one slot per day. The code reads
    [precipitation_probability_max] through [?.], so it may be absent. *)
Record t : Type := Make {
  time : list (js string);
  temperature_2m_max : list (js Q);
  temperature_2m_min : list (js Q);
  weathercode : list (js Z);
  precipitation_probability_max : option (list (js Q));
}.

Inductive field : Type :=
| f_time
| f_temperature_2m_max
| f_temperature_2m_min
| f_weathercode
| f_precipitation_probability_max.

(** The length of a sequence of [d]; [None] when the sequence is absent. *)
Definition field_length (d : t) (f : field) : option nat :=
  match f with
  | f_time => Some (length (time d))
  | f_temperature_2m_max => Some (length (temperature_2m_max d))
  | f_temperature_2m_min => Some (length (temperature_2m_min d))
  | f_weathercode => Some (length (weathercode d))
  | f_precipitation_probability_max =>
      length <$> precipitation_probability_max d
  end.

Definition fields : list field :=
  [f_time; f_temperature_2m_max; f_temperature_2m_min; f_weathercode;
   f_precipitation_probability_max].

(** The length of the shortest sequence that is present. *)
Definition shortest (d : t) : nat :=
  foldr Nat.min (length (time d)) (omap (field_length d) fields).

(** The data model's invariant: every sequence that is present has the
    length of [time]. *)
Definition equal_lengths (d : t) : Prop :=
  ∀ f n, field_length d f = Some n → n = length (time d).
End Daily.

(** The body of a forecast response. *)
Record weather_json : Type := WeatherJson {
  current_weather : option Current.t;
  daily : option Daily.t;
}.

(** ** Requests and the network *)

Inductive param : Type :=
| PText (s : string)
| PNum (q : Q)
| PEncoded (s : jsstring).

(** A GET request: the endpoint and its query parameters in order. *)
Record request : Type := Get { endpoint : string; query : list (string * param) }.

(** What [fetch] settles to: a rejected promise (transport failure) or a
    response with its status and, when the body parses, its JSON. *)
Inductive fetch_result (A : Type) : Type :=
| Rejected
| Response (status : Z) (body : option A).
#[global] Arguments Rejected {A}.
#[global] Arguments Response {A} status body.

(** [res.ok]: the status is in the range 200-299. *)
Definition ok (status : Z) : bool := bool_decide (200 ≤ status ≤ 299)%Z.

(** The two remote services, as oracles. *)
Record network : Type := Network {
  geocoding : request → fetch_result geo_json;
  forecast : request → fetch_result weather_json;
}.

(** What the platform's [getCurrentPosition] reports. *)
Inductive position_result : Type :=
| Position (latitude longitude : Q)
| PositionError (message : option string).

Inductive exn : Type :=
| URIError
| FetchRejected
| HttpError (api : string) (status : Z)
| JsonSyntaxError
| TypeError.

(** ** What the script displays *)

(** A temperature as a card prints it: [${degrees}${temp_unit}]. *)
Record temp_label : Type := TempLabel { degrees : rounded; temp_unit : string }.

(** The element [renderCurrent] builds. Dates are kept as received: their
    text depends on the locale. *)
Record current_view : Type := CurrentView {
  heading : string;
  icon : span;
  big_temp : temp_label;
  desc : string;
  wind_mph : rounded;
  updated : js string;
}.

(** One [div.day] of the forecast grid. *)
Record day_card : Type := DayCard {
  card_icon : span;
  card_date : js string;
  card_desc : string;
  hi : temp_label;
  lo : temp_label;
  precip : option Q;
}.

(** The content of a display region. *)
Inductive html : Type :=
| Markup (s : string)
| CurrentPanel (v : current_view)
| ForecastPanel (grid : list day_card).

Definition empty_html : html := Markup EmptyString.

(** ** The page: DOM state, session state, and what the script emitted *)

Record page : Type := Page {
  cityInput_value : jsstring;
  unitToggle_checked : bool;
  currentEl : html;
  forecastEl : html;
  errorEl : string;
  geoBtn_disabled : bool;
  geoBtn_textContent : string;
  lastLocation : option location;
  fetched : list request;
  console : list exn;
  reads : list (Daily.field * nat);
}.

Definition set_currentEl (h : html) (p : page) : page :=
  Page (cityInput_value p) (unitToggle_checked p) h (forecastEl p)
       (errorEl p) (geoBtn_disabled p) (geoBtn_textContent p)
       (lastLocation p) (fetched p) (console p) (reads p).

Definition set_forecastEl (h : html) (p : page) : page :=
  Page (cityInput_value p) (unitToggle_checked p) (currentEl p) h
       (errorEl p) (geoBtn_disabled p) (geoBtn_textContent p)
       (lastLocation p) (fetched p) (console p) (reads p).

Definition set_errorEl (s : string) (p : page) : page :=
  Page (cityInput_value p) (unitToggle_checked p) (currentEl p) (forecastEl p)
       s (geoBtn_disabled p) (geoBtn_textContent p)
       (lastLocation p) (fetched p) (console p) (reads p).

Definition set_geoBtn_disabled (b : bool) (p : page) : page :=
  Page (cityInput_value p) (unitToggle_checked p) (currentEl p) (forecastEl p)
       (errorEl p) b (geoBtn_textContent p)
       (lastLocation p) (fetched p) (console p) (reads p).

Definition set_geoBtn_textContent (s : string) (p : page) : page :=
  Page (cityInput_value p) (unitToggle_checked p) (currentEl p) (forecastEl p)
       (errorEl p) (geoBtn_disabled p) s
       (lastLocation p) (fetched p) (console p) (reads p).

(** The user ticks or unticks the unit checkbox. *)
Definition set_unitToggle_checked (b : bool) (p : page) : page :=
  Page (cityInput_value p) b (currentEl p) (forecastEl p)
       (errorEl p) (geoBtn_disabled p) (geoBtn_textContent p)
       (lastLocation p) (fetched p) (console p) (reads p).

Definition set_lastLocation (l : location) (p : page) : page :=
  Page (cityInput_value p) (unitToggle_checked p) (currentEl p) (forecastEl p)
       (errorEl p) (geoBtn_disabled p) (geoBtn_textContent p)
       (Some l) (fetched p) (console p) (reads p).

Definition log_fetch (r : request) (p : page) : page :=
  Page (cityInput_value p) (unitToggle_checked p) (currentEl p) (forecastEl p)
       (errorEl p) (geoBtn_disabled p) (geoBtn_textContent p)
       (lastLocation p) (fetched p ++ [r]) (console p) (reads p).

Definition log_console (e : exn) (p : page) : page :=
  Page (cityInput_value p) (unitToggle_checked p) (currentEl p) (forecastEl p)
       (errorEl p) (geoBtn_disabled p) (geoBtn_textContent p)
       (lastLocation p) (fetched p) (console p ++ [e]) (reads p).

Definition log_read (f : Daily.field) (i : nat) (p : page) : page :=
  Page (cityInput_value p) (unitToggle_checked p) (currentEl p) (forecastEl p)
       (errorEl p) (geoBtn_disabled p) (geoBtn_textContent p)
       (lastLocation p) (fetched p) (console p) (reads p ++ [(f, i)]).

(** [grid.appendChild(card)], the grid being the one in [forecastEl]. *)
Definition append_card (c : day_card) (p : page) : page :=
  match forecastEl p with
  | ForecastPanel grid => set_forecastEl (ForecastPanel (grid ++ [c])) p
  | _ => p
  end.

(** ** Computations: state and exceptions *)

(** A computation runs on a page and ends normally or by a thrown value;
    either way the page keeps what was written before. *)
Definition M (A : Type) : Type := page → (exn + A) * page.

#[global] Instance M_ret : MRet M := λ A a p, (inr a, p).

#[global] Instance M_bind : MBind M := λ A B f m p,
  match m p with
  | (inr a, p') => f a p'
  | (inl e, p') => (inl e, p')
  end.

#[global] Instance M_fmap : FMap M := λ A B f m p,
  match m p with
  | (inr a, p') => (inr (f a), p')
  | (inl e, p') => (inl e, p')
  end.

Definition throw {A} (e : exn) : M A := λ p, (inl e, p).

Definition gets {A} (f : page → A) : M A := λ p, (inr (f p), p).

Definition modify (f : page → page) : M unit := λ p, (inr (), f p).

(** [try { body } catch (err) { handler }] *)
Definition try_catch {A} (body : M A) (handler : exn → M A) : M A := λ p,
  match body p with
  | (inl e, p') => handler e p'
  | r => r
  end.

(** [try { body } finally { cleanup }] *)
Definition try_finally {A} (body : M A) (cleanup : M unit) : M A := λ p,
  let '(r, p') := body p in
  match cleanup p' with
  | (inl e, p'') => (inl e, p'')
  | (inr _, p'') => (r, p'')
  end.

(** [for (let i = 0; i < n; i++) body(i)], over the indices it visits. *)
Fixpoint for_each (indices : list nat) (body : nat → M unit) : M unit :=
  match indices with
  | [] => mret ()
  | i :: rest => body i ;; for_each rest body
  end.

(** ** API helpers *)

(** [await fetch(url)]: the call is logged, then the oracle answers. *)
Definition fetch {A} (server : request → fetch_result A) (req : request)
    : M (Z * option A) := λ p,
  match server req with
  | Rejected => (inl FetchRejected, log_fetch req p)
  | Response status body => (inr (status, body), log_fetch req p)
  end.

(** [await res.json()] *)
Definition res_json {A} (body : option A) : M A :=
  match body with
  | Some json => mret json
  | None => throw JsonSyntaxError
  end.

Definition geocode_request (city : jsstring) : request :=
  Get "https://geocoding-api.open-meteo.com/v1/search"
      [("name", PEncoded city); ("count", PText "1");
       ("language", PText "en"); ("format", PText "json")].

Definition geocodeCity (net : network) (city : jsstring) : M (option location) :=
  if negb (isWellFormed city) then throw URIError else
  '(status, body) ← fetch (geocoding net) (geocode_request city);
  if negb (ok status) then throw (HttpError "geocoding" status) else
  json ← res_json body;
  match results json with
  | None | Some [] => mret None
  | Some (r :: _) =>
      mret (Some {| name := name r; country := country r;
                    latitude := latitude r; longitude := longitude r |})
  end.

Definition weather_request (lat lon : Q) (tempUnit : string) : request :=
  let daily :=
    String.concat ","
      ["temperature_2m_max"; "temperature_2m_min"; "weathercode";
       "precipitation_probability_max"] in
  Get "https://api.open-meteo.com/v1/forecast"
      [("latitude", PNum lat); ("longitude", PNum lon);
       ("current_weather", PText "true"); ("daily", PText daily);
       ("timezone", PText "auto"); ("temperature_unit", PText tempUnit);
       ("windspeed_unit", PText "mph")].

Definition fetchWeather (net : network) (lat lon : Q) (tempUnit : string)
    : M weather_json :=
  '(status, body) ← fetch (forecast net) (weather_request lat lon tempUnit);
  if negb (ok status) then throw (HttpError "weather" status) else
  res_json body.

(** ** Render helpers *)

Definition showError (msg : string) : M unit := modify (set_errorEl msg).

Definition unit_suffix (useF : bool) : string := if useF then "°F" else "°C".

Definition unit_param (useF : bool) : string :=
  if useF then "fahrenheit" else "celsius".

(** [loc.country ? ', ' + loc.country : ''] *)
Definition country_suffix (loc : location) : string :=
  match country loc with
  | EmptyString => EmptyString
  | c => ", " +:+ c
  end.

(** The text contains ["<"] (code 60), the character that opens a tag or a
    comment. *)
Fixpoint has_lt (s : string) : bool :=
  match s with
  | EmptyString => false
  | String c s' => if Ascii.eqb c (Ascii.ascii_of_nat 60) then true else has_lt s'
  end.

(** The HTML parser of the browser, as far as [renderCurrent] depends on
    it: given the text of the heading, which holds the name and the country
    as received, it tells whether the element of class [big-temp] that
    follows the heading in the template is still there once the template is
    parsed. Text without ["<"] is character data and leaves the elements
    of the template in place; for any other text the parser is asked. *)
Definition html_parser : Type := string → bool.

(** [wrap.querySelector('.big-temp')] is not [null]. *)
Definition has_big_temp (parse : html_parser) (heading : string) : bool :=
  if has_lt heading then parse heading else true.

Definition renderCurrent (parse : html_parser) (loc : location)
    (data : weather_json) (useF : bool) : M unit :=
  let unit_ := unit_suffix useF in
  match current_weather data with
  | None => throw TypeError
  | Some c =>
      let desc := weatherCodeToText (Current.weathercode c) in
      let isDay :=
        match Current.is_day c with
        | Val 1 => true
        | _ => false
        end in
      modify (set_currentEl empty_html);;
      let wrap :=
        {| heading := "Current — " +:+ name loc +:+ country_suffix loc;
           icon := makeIconImg (Current.weathercode c) isDay;
           big_temp := TempLabel (Math_round (Current.temperature c)) unit_;
           desc := desc;
           wind_mph := Math_round (Current.windspeed c);
           updated := Current.time c |} in
      if has_big_temp parse (heading wrap)
      then modify (set_currentEl (CurrentPanel wrap))
      else throw TypeError
  end.

(** [arr[i]], the access being recorded. *)
Definition read {A} (f : Daily.field) (arr : list (js A)) (i : nat) : M (js A) :=
  modify (log_read f i);; mret (index arr i).

(** [arr?.[i]] *)
Definition read_opt {A} (f : Daily.field) (arr : option (list (js A))) (i : nat)
    : M (js A) :=
  match arr with
  | None => mret Undefined
  | Some arr => read f arr i
  end.

(** One turn of the loop of [renderForecast]. *)
Definition render_day (d : Daily.t) (unit_ : string) (i : nat) : M unit :=
  dateStr ← read Daily.f_time (Daily.time d) i;
  hi ← Math_round <$> read Daily.f_temperature_2m_max (Daily.temperature_2m_max d) i;
  lo ← Math_round <$> read Daily.f_temperature_2m_min (Daily.temperature_2m_min d) i;
  code ← read Daily.f_weathercode (Daily.weathercode d) i;
  precip ← read_opt Daily.f_precipitation_probability_max
             (Daily.precipitation_probability_max d) i;
  modify (append_card
    {| card_icon := makeIconImg code true;
       card_date := dateStr;
       card_desc := weatherCodeToText code;
       hi := TempLabel hi unit_;
       lo := TempLabel lo unit_;
       precip := finite precip |}).

Definition renderForecast (data : weather_json) (useF : bool) : M unit :=
  let unit_ := unit_suffix useF in
  modify (set_forecastEl (ForecastPanel []));;
  match daily data with
  | None => throw TypeError
  | Some d =>
      for_each (seq 0 (Nat.min 5 (length (Daily.time d)))) (render_day d unit_)
  end.

(** ** Event handlers

    Each handler is run on its own, from the event to the end of its last
    continuation: the answers of the network, of the platform and of the
    HTML parser are parameters, and no other handler runs in between. *)

(** The [submit] handler of the search form. [e.preventDefault()] acts on
    the event, not on the page. *)
Definition form_submit (net : network) (parse : html_parser) : M unit :=
  city ← gets (λ p, trim (cityInput_value p));
  if falsy city then mret () else
  showError EmptyString;;
  modify (set_currentEl (Markup "Looking up location…"));;
  modify (set_forecastEl empty_html);;
  try_catch
    (loc ← geocodeCity net city;
     match loc with
     | None =>
         modify (set_currentEl empty_html);;
         showError "City not found. Try again."
     | Some loc =>
         modify (set_lastLocation loc);;
         modify (set_currentEl (Markup
           ("Location: " +:+ name loc +:+ ", " +:+ country loc
              +:+ "<br>Fetching weather…")));;
         useF ← gets unitToggle_checked;
         let unitParam := unit_param useF in
         data ← fetchWeather net (latitude loc) (longitude loc) unitParam;
         renderCurrent parse loc data useF;;
         renderForecast data useF
     end)
    (λ err,
       modify (log_console err);;
       modify (set_currentEl empty_html);;
       modify (set_forecastEl empty_html);;
       showError "Something went wrong fetching weather.").

(** The success callback given to [getCurrentPosition]. *)
Definition on_position (net : network) (parse : html_parser) (lat lon : Q)
    : M unit :=
  try_finally
    (try_catch
       (useF ← gets unitToggle_checked;
        let unitParam := unit_param useF in
        data ← fetchWeather net lat lon unitParam;
        let loc := {| name := "Your location"; country := EmptyString;
                      latitude := lat; longitude := lon |} in
        modify (set_lastLocation loc);;
        renderCurrent parse loc data useF;;
        renderForecast data useF)
       (λ err,
          modify (log_console err);;
          showError "Could not fetch weather for your location."))
    (modify (set_geoBtn_disabled false);;
     modify (set_geoBtn_textContent "Use my location")).

(** [err?.message || fallback] *)
Definition message_or (message : option string) (fallback : string) : string :=
  match message with
  | Some (String _ _ as m) => m
  | _ => fallback
  end.

(** The error callback given to [getCurrentPosition]. *)
Definition on_position_error (message : option string) : M unit :=
  showError (message_or message "Permission denied or unavailable.");;
  modify (set_geoBtn_disabled false);;
  modify (set_geoBtn_textContent "Use my location").

(** The [click] handler of the geolocation button. [geolocation] is [None]
    when [navigator.geolocation] is missing, and otherwise what the platform
    reports to the callbacks (a timeout is reported as an error). *)
Definition geoBtn_click (net : network) (parse : html_parser)
    (geolocation : option position_result) : M unit :=
  match geolocation with
  | None => showError "Geolocation is not supported by your browser."
  | Some result =>
      showError EmptyString;;
      modify (set_geoBtn_disabled true);;
      modify (set_geoBtn_textContent "Locating…");;
      match result with
      | Position lat lon => on_position net parse lat lon
      | PositionError message => on_position_error message
      end
  end.

(** Reading a property of the global [lastLocation]: a [TypeError] when it
    is [null]. *)
Definition the_lastLocation : M location := λ p,
  match lastLocation p with
  | Some loc => (inr loc, p)
  | None => (inl TypeError, p)
  end.

(** The [change] handler of the unit toggle. *)
Definition unitToggle_change (net : network) (parse : html_parser) : M unit :=
  last ← gets lastLocation;
  match last with
  | None => mret ()
  | Some _ =>
  try_catch
    (showError EmptyString;;
     loc ← the_lastLocation;
     modify (set_currentEl (Markup
       ("Location: " +:+ name loc +:+ country_suffix loc
          +:+ "<br>Fetching weather…")));;
     modify (set_forecastEl empty_html);;
     useF ← gets unitToggle_checked;
     let unitParam := unit_param useF in
     loc ← the_lastLocation;
     data ← fetchWeather net (latitude loc) (longitude loc) unitParam;
     loc ← the_lastLocation;
     renderCurrent parse loc data useF;;
     renderForecast data useF)
    (λ err,
       modify (log_console err);;
       modify (set_currentEl empty_html);;
       modify (set_forecastEl empty_html);;
       showError "Something went wrong fetching weather.")
  end.

(** ** Vocabulary of the statements *)

(** A call to an endpoint fails: the transport fails, or the status is not
    a success status. *)
Definition fails {A} (r : fetch_result A) : Prop :=
  match r with
  | Rejected => True
  | Response status _ => ok status = false
  end.

(** The card for day [i] of [d], with the unit suffix [unit_]. *)
Definition day_card_at (d : Daily.t) (unit_ : string) (i : nat) : day_card :=
  let code := index (Daily.weathercode d) i in
  {| card_icon := makeIconImg code true;
     card_date := index (Daily.time d) i;
     card_desc := weatherCodeToText code;
     hi := TempLabel (Math_round (index (Daily.temperature_2m_max d) i)) unit_;
     lo := TempLabel (Math_round (index (Daily.temperature_2m_min d) i)) unit_;
     precip :=
       finite (from_option (λ arr, index arr i) Undefined
                 (Daily.precipitation_probability_max d)) |}.

(** The slots of [d] that are read for day [i], in the order of the reads. *)
Definition day_reads (d : Daily.t) (i : nat) : list (Daily.field * nat) :=
  [(Daily.f_time, i); (Daily.f_temperature_2m_max, i);
   (Daily.f_temperature_2m_min, i); (Daily.f_weathercode, i)]
  ++ match Daily.precipitation_probability_max d with
     | Some _ => [(Daily.f_precipitation_probability_max, i)]
     | None => []
     end.

(** The page once the days [days] of [d] are added to a grid that holds
    [grid]. *)
Definition with_days (d : Daily.t) (unit_ : string) (days : list nat)
    (grid : list day_card) (p : page) : page :=
  Page (cityInput_value p) (unitToggle_checked p) (currentEl p)
       (ForecastPanel (grid ++ (day_card_at d unit_ <$> days)))
       (errorEl p) (geoBtn_disabled p) (geoBtn_textContent p)
       (lastLocation p) (fetched p) (console p)
       (reads p ++ (days ≫= day_reads d)).

(** The number of days [renderForecast] shows. *)
Definition shown_days (d : Daily.t) : nat := Nat.min 5 (length (Daily.time d)).

(** A read stays within a sequence of [d]. *)
Definition in_bounds (d : Daily.t) (r : Daily.field * nat) : Prop :=
  ∀ n, Daily.field_length d r.1 = Some n → (r.2 < n)%nat.

(** What [fetchWeather] settles to on a network [net]. *)
Definition weather_outcome (net : network) (lat lon : Q) (tempUnit : string)
    : exn + weather_json :=
  match forecast net (weather_request lat lon tempUnit) with
  | Rejected => inl FetchRejected
  | Response status body =>
      if ok status then
        match body with
        | Some json => inr json
        | None => inl JsonSyntaxError
        end
      else inl (HttpError "weather" status)
  end.

(** What [geocodeCity] settles to on a network [net]. *)
Definition geocode_outcome (net : network) (city : jsstring)
    : exn + option location :=
  match geocoding net (geocode_request city) with
  | Rejected => inl FetchRejected
  | Response status body =>
      if ok status then
        match body with
        | Some json => inr (results json ≫= head)
        | None => inl JsonSyntaxError
        end
      else inl (HttpError "geocoding" status)
  end.

(** The heading of the current panel for [loc]. *)
Definition heading_of (loc : location) : string :=
  "Current — " +:+ name loc +:+ country_suffix loc.

(** The panel [renderCurrent] builds from [c]. *)
Definition current_view_at (loc : location) (c : Current.t) (useF : bool)
    : current_view :=
  {| heading := "Current — " +:+ name loc +:+ country_suffix loc;
     icon := makeIconImg (Current.weathercode c)
               match Current.is_day c with
               | Val 1 => true
               | _ => false
               end;
     big_temp := TempLabel (Math_round (Current.temperature c)) (unit_suffix useF);
     desc := weatherCodeToText (Current.weathercode c);
     wind_mph := Math_round (Current.windspeed c);
     updated := Current.time c |}.


(** ** Sample data *)

Module Sample.

Definition paris : location :=
  {| name := "Paris"; country := "France";
     latitude := 48.86; longitude := 2.35 |}.

Definition now : Current.t :=
  Current.Make (Val 18.4%Q) (Val 12%Q) (Val 2) (Val 1) (Val "2024-05-01T12:00").

(** Seven days of forecast, all sequences of the same length. *)
Definition week : Daily.t :=
  Daily.Make
    [Val "2024-05-01"; Val "2024-05-02"; Val "2024-05-03"; Val "2024-05-04";
     Val "2024-05-05"; Val "2024-05-06"; Val "2024-05-07"]
    [Val 18.4%Q; Val 19.5%Q; Val 21%Q; Val 17.2%Q; Val 16%Q; Val 15.5%Q; Val 20%Q]
    [Val 9.1%Q; Val 10%Q; Val 11.5%Q; Val 8%Q; Val 7.4%Q; Val 6%Q; Val 9%Q]
    [Val 2; Val 3; Val 61; Val 56; Val 0; Val 95; Val 1]
    (Some [Val 10%Q; Val 20%Q; Val 80%Q; Val 60%Q; Null; Val 90%Q; Val 5%Q]).

(** Two days, but a single maximum temperature. *)
Definition ragged : Daily.t :=
  Daily.Make [Val "2024-05-01"; Val "2024-05-02"]
             [Val 20%Q] [Val 10%Q; Val 11%Q] [Val 0; Val 1] None.

Definition weather : weather_json := WeatherJson (Some now) (Some week).

(** Both services answer. *)
Definition net_up : network :=
  Network (λ _, Response 200 (Some (GeoJson (Some [paris]))))
          (λ _, Response 200 (Some weather)).

(** The place is unknown to the geocoder. *)
Definition net_nowhere : network :=
  Network (λ _, Response 200 (Some (GeoJson None)))
          (λ _, Response 200 (Some weather)).

(** The geocoder answers, the forecast service reports a server error. *)
Definition net_no_forecast : network :=
  Network (λ _, Response 200 (Some (GeoJson (Some [paris]))))
          (λ _, Response 500 None).

(** A parser that loses the [big-temp] element whenever the heading holds
    markup. *)
Definition strict : html_parser := λ _, false.

(** A place whose name opens a comment. *)
Definition comment : location :=
  {| name := "<!--"; country := "France";
     latitude := 48.86; longitude := 2.35 |}.

(** A lone high surrogate typed in the search box. *)
Definition lone_surrogate : jsstring := [0xD800].

(** The page as loaded, with [city] typed in the search box. *)
Definition fresh (city : jsstring) : page :=
  Page city false empty_html empty_html EmptyString false "Use my location"
       None [] [] [].

(** "Paris" typed in the search box, in UTF-16. *)
Definition typed_paris : page := fresh [80; 97; 114; 105; 115].

(** Only a space and a tab typed in the search box. *)
Definition typed_blank : page := fresh [32; 9].

(** After a search that resolved Paris, Fahrenheit being now selected. *)
Definition seen_paris : page :=
  Page [80; 97; 114; 105; 115] true empty_html empty_html EmptyString false
       "Use my location" (Some paris) [] [] [].

End Sample.

(** * Properties *)

(** ** Running the computations *)

Ltac run :=
  repeat (progress (
    unfold mbind, M_bind, mret, M_ret, fmap, M_fmap, gets, modify, throw,
      showError, read, read_opt, res_json, try_catch, try_finally,
      the_lastLocation,
      set_currentEl, set_forecastEl, set_errorEl, set_geoBtn_disabled,
      set_geoBtn_textContent, set_lastLocation, log_fetch, log_console,
      log_read;
    cbn [cityInput_value unitToggle_checked currentEl forecastEl errorEl
         geoBtn_disabled geoBtn_textContent lastLocation fetched console
         reads fst snd])).

Ltac ends := eexists; split; [reflexivity|]; run; done.

Lemma fetchWeather_run net lat lon tempUnit p :
  fetchWeather net lat lon tempUnit p
  = (weather_outcome net lat lon tempUnit,
     log_fetch (weather_request lat lon tempUnit) p).
Proof.
  unfold fetchWeather, fetch, weather_outcome.
  destruct (forecast net _) as [|status [json|]]; run;
    try destruct (ok status); reflexivity.
Qed.

Lemma geocodeCity_run net city p :
  isWellFormed city = true →
  geocodeCity net city p
  = (geocode_outcome net city, log_fetch (geocode_request city) p).
Proof.
  intros Hwf. unfold geocodeCity, fetch, geocode_outcome. rewrite Hwf.
  cbn [negb].
  destruct (geocoding net _) as [|status [[[[|[] ?]|]]|]]; run;
    try destruct (ok status); reflexivity.
Qed.

Lemma geocodeCity_ill_formed net city p :
  isWellFormed city = false → geocodeCity net city p = (inl URIError, p).
Proof. intros Hwf. unfold geocodeCity. rewrite Hwf. reflexivity. Qed.

Lemma renderCurrent_run parse loc data c useF p :
  current_weather data = Some c →
  has_big_temp parse (heading_of loc) = true →
  renderCurrent parse loc data useF p
  = (inr (), set_currentEl (CurrentPanel (current_view_at loc c useF)) p).
Proof.
  intros Hc Hb. unfold renderCurrent. rewrite Hc. cbn [heading].
  fold (heading_of loc). rewrite Hb. reflexivity.
Qed.

Lemma renderCurrent_swallowed parse loc data c useF p :
  current_weather data = Some c →
  has_big_temp parse (heading_of loc) = false →
  renderCurrent parse loc data useF p
  = (inl TypeError, set_currentEl empty_html p).
Proof.
  intros Hc Hb. unfold renderCurrent. rewrite Hc. cbn [heading].
  fold (heading_of loc). rewrite Hb. reflexivity.
Qed.

Lemma renderCurrent_throw parse loc data useF p :
  current_weather data = None →
  renderCurrent parse loc data useF p = (inl TypeError, p).
Proof. intros Hc. unfold renderCurrent. rewrite Hc. reflexivity. Qed.

Lemma your_location_kept parse lat lon :
  has_big_temp parse (heading_of (Location "Your location" EmptyString lat lon))
  = true.
Proof. reflexivity. Qed.

Lemma render_day_run d u i g p :
  forecastEl p = ForecastPanel g →
  render_day d u i p = (inr (), with_days d u [i] g p).
Proof.
  intros Hg. unfold render_day, with_days, day_card_at, day_reads, append_card.
  destruct (Daily.precipitation_probability_max d); run; rewrite Hg; run;
    cbn [from_option list_fmap list_bind app]; rewrite <- ?app_assoc;
    reflexivity.
Qed.

Lemma with_days_nil d u g p :
  forecastEl p = ForecastPanel g → with_days d u [] g p = p.
Proof.
  intros Hg. destruct p; cbn in Hg; subst. unfold with_days; cbn.
  by rewrite !app_nil_r.
Qed.

Lemma with_days_cons d u i days g p :
  with_days d u days (g ++ [day_card_at d u i]) (with_days d u [i] g p)
  = with_days d u (i :: days) g p.
Proof. unfold with_days; cbn. rewrite !app_nil_r, <- !app_assoc. reflexivity. Qed.

Lemma for_each_render_day d u days : ∀ g p,
  forecastEl p = ForecastPanel g →
  for_each days (render_day d u) p = (inr (), with_days d u days g p).
Proof.
  induction days as [|i days IH]; intros g p Hg; cbn [for_each].
  - by rewrite with_days_nil.
  - unfold mbind, M_bind. rewrite (render_day_run d u i g p Hg).
    rewrite (IH (g ++ [day_card_at d u i])%list); [by rewrite with_days_cons|].
    reflexivity.
Qed.

Lemma renderForecast_run data d useF p :
  daily data = Some d →
  renderForecast data useF p
  = (inr (), with_days d (unit_suffix useF) (seq 0 (shown_days d)) []
               (set_forecastEl (ForecastPanel []) p)).
Proof.
  intros Hd. unfold renderForecast. run. rewrite Hd.
  by apply for_each_render_day.
Qed.

Lemma renderForecast_throw data useF p :
  daily data = None →
  renderForecast data useF p
  = (inl TypeError, set_forecastEl (ForecastPanel []) p).
Proof. intros Hd. unfold renderForecast. run. rewrite Hd. reflexivity. Qed.

Lemma day_reads_index d i r : r ∈ day_reads d i → r.2 = i.
Proof.
  unfold day_reads. rewrite elem_of_app, !elem_of_cons, elem_of_nil.
  destruct (Daily.precipitation_probability_max d);
    rewrite ?elem_of_cons, ?elem_of_nil; intros H; destruct_or!; by subst.
Qed.

Lemma day_reads_present d i r :
  r ∈ day_reads d i → is_Some (Daily.field_length d r.1).
Proof.
  unfold day_reads. rewrite elem_of_app, !elem_of_cons, elem_of_nil.
  destruct (Daily.precipitation_probability_max d) eqn:Hp;
    rewrite ?elem_of_cons, ?elem_of_nil; intros H; destruct_or!; subst;
    cbn; rewrite ?Hp; by eauto.
Qed.

Lemma shown_reads_index d r :
  r ∈ seq 0 (shown_days d) ≫= day_reads d →
  (r.2 < shown_days d)%nat.
Proof.
  rewrite list_elem_of_bind. intros (i & Hr & Hi).
  apply day_reads_index in Hr. apply elem_of_seq in Hi. lia.
Qed.

(** The four ways [renderCurrent] followed by [renderForecast] can go. *)
Ltac render_cases parse loc data :=
  let c := fresh "c" in
  let Hc := fresh "Hc" in
  let Hb := fresh "Hb" in
  let d := fresh "d" in
  let Hd := fresh "Hd" in
  destruct (current_weather data) as [c|] eqn:Hc;
  [ destruct (has_big_temp parse (heading_of loc)) eqn:Hb;
    [ rewrite (renderCurrent_run parse loc data c _ _ Hc Hb); run;
      destruct (daily data) as [d|] eqn:Hd;
      [ rewrite (renderForecast_run data d _ _ Hd); unfold with_days; run
      | rewrite (renderForecast_throw data _ _ Hd); run ]
    | rewrite (renderCurrent_swallowed parse loc data c _ _ Hc Hb); run ]
  | rewrite (renderCurrent_throw parse loc data _ _ Hc); run ].

(** ** The weather-code mapper *)

Lemma code_map_documented (z : Z) :
  z ∈ documented_codes →
  ∃ text, code_map !! z = Some text ∧ text ≠ placeholder ∧ text ≠ EmptyString.
Proof.
  unfold documented_codes. rewrite !elem_of_cons, elem_of_nil.
  intros H. destruct_or!; try done; subst z; eexists;
    (split; [vm_compute; reflexivity|]); split; discriminate.
Qed.

Lemma code_map_undocumented (z : Z) :
  z ∉ documented_codes → code_map !! z = None.
Proof.
  unfold documented_codes. rewrite !not_elem_of_cons. intros H. destruct_and!.
  unfold code_map. rewrite !lookup_insert_ne by congruence. apply lookup_empty.
Qed.

(** C1: on a documented code [weatherCodeToText] returns the text of that
    code, which is neither the placeholder nor empty; on every other integer
    it returns the placeholder. It is a total function: no input raises. *)
Theorem weatherCodeToText_documented (z : Z) :
  (z ∈ documented_codes →
     weatherCodeToText (Val z) ≠ placeholder
     ∧ weatherCodeToText (Val z) ≠ EmptyString)
  ∧ (z ∉ documented_codes → weatherCodeToText (Val z) = placeholder).
Proof.
  split; intros H; cbn.
  - by destruct (code_map_documented z H) as (text & -> & ? & ?).
  - by rewrite code_map_undocumented.
Qed.

Lemma weatherCodeToText_documented_witness :
  (weatherCodeToText (Val 45) ≠ placeholder
   ∧ weatherCodeToText (Val 45) ≠ EmptyString)
  ∧ weatherCodeToText (Val 4) = placeholder.
Proof.
  split.
  - apply (proj1 (weatherCodeToText_documented 45)).
    apply (bool_decide_unpack _). vm_compute. exact I.
  - apply (proj2 (weatherCodeToText_documented 4)).
    apply (bool_decide_unpack _). vm_compute. exact I.
Defined.

(** C7: the documented codes 56 and 57 (freezing drizzle) are in none of
    the lists of [makeIconImg]: for them it returns the fallback glyph,
    whatever [isDay], although [weatherCodeToText] knows both codes. *)
Theorem makeIconImg_freezing_drizzle (isDay : bool) :
  56 ∈ documented_codes ∧ 57 ∈ documented_codes
  ∧ textContent (makeIconImg (Val 56) isDay) = Glyph.fallback
  ∧ textContent (makeIconImg (Val 57) isDay) = Glyph.fallback
  ∧ weatherCodeToText (Val 56) = "Freezing drizzle"
  ∧ weatherCodeToText (Val 57) = "Freezing drizzle (dense)".
Proof.
  split; [|split]; [apply (bool_decide_unpack _); vm_compute; exact I ..|].
  destruct isDay; repeat split; vm_compute; reflexivity.
Qed.

(** The other documented codes all have a glyph of their family. *)
Lemma makeIconImg_documented_family (z : Z) (isDay : bool) :
  z ∈ documented_codes → z ≠ 56 → z ≠ 57 →
  textContent (makeIconImg (Val z) isDay) ≠ Glyph.fallback.
Proof.
  unfold documented_codes. rewrite !elem_of_cons, elem_of_nil.
  intros H ? ?. destruct_or!; try done; subst z; destruct isDay;
    vm_compute; discriminate.
Qed.

(** C8: [makeIconImg] returns the night glyph exactly when the code is 0
    and [isDay] is false; for any other code the element it returns does
    not depend on [isDay]. *)
Theorem makeIconImg_night_only (z : Z) (isDay : bool) :
  (textContent (makeIconImg (Val z) isDay) = Glyph.moon ↔ z = 0 ∧ isDay = false)
  ∧ (z ≠ 0 → ∀ b, makeIconImg (Val z) b = makeIconImg (Val z) isDay).
Proof.
  split.
  - unfold makeIconImg, includes. cbn [textContent].
    destruct (bool_decide_reflect (z ∈ [0])) as [Hz|Hz].
    + apply list_elem_of_singleton in Hz. subst z.
      destruct isDay; split; intros Hx; try discriminate Hx; try done.
      by destruct Hx.
    + assert (z ≠ 0) by (intros ->; apply Hz; left).
      split; [|intros [? _]; done].
      intros Hx. exfalso.
      repeat (case_bool_decide; [discriminate Hx|]). discriminate Hx.
  - intros Hz b. unfold makeIconImg, includes.
    rewrite bool_decide_eq_false_2; [done|].
    by rewrite list_elem_of_singleton.
Qed.

Lemma makeIconImg_night_only_witness :
  makeIconImg (Val 3) false = makeIconImg (Val 3) true.
Proof. apply (proj2 (makeIconImg_night_only 3 true)). lia. Defined.

(** ** The search form *)

Lemma trim_start_blank (s : jsstring) :
  forallb is_white_space s = true → trim_start s = [].
Proof.
  induction s as [|c s IH]; cbn; [done|].
  destruct (is_white_space c); cbn; [exact IH | discriminate].
Qed.

Lemma trim_blank (s : jsstring) :
  forallb is_white_space s = true → trim s = [].
Proof. intros H. unfold trim, trim_end. by rewrite (trim_start_blank s H). Qed.

(** C9: when the city field is empty or holds white space only, the submit
    handler returns at once: the page it leaves is the page it found (same
    error text, display regions and last location) and nothing was
    fetched. *)
Theorem form_submit_blank (net : network) (parse : html_parser) (p : page) :
  forallb is_white_space (cityInput_value p) = true →
  form_submit net parse p = (inr (), p).
Proof.
  intros H. unfold form_submit, gets, mbind, M_bind.
  by rewrite (trim_blank _ H).
Qed.

Lemma form_submit_blank_witness :
  form_submit Sample.net_up Sample.strict Sample.typed_blank = (inr (), Sample.typed_blank).
Proof. apply form_submit_blank. vm_compute. reflexivity. Defined.

Lemma geocode_outcome_not_found net city status rs :
  geocoding net (geocode_request city) = Response status (Some (GeoJson rs)) →
  ok status = true →
  rs = None ∨ rs = Some [] →
  geocode_outcome net city = inr None.
Proof.
  intros Hnet Hok Hrs. unfold geocode_outcome. rewrite Hnet, Hok.
  by destruct Hrs; subst.
Qed.

(** C3: when the geocoder is asked (the trimmed city is not empty and is
    well-formed UTF-16, so that [encodeURIComponent] builds the request) and
    answers with a success status and a body whose
    [results] is absent or empty, [geocodeCity] returns [null] and the
    submit handler ends normally, without entering its [catch]: the current
    conditions region is empty, the error line reads exactly
    "City not found. Try again.", the geocoding request is the only call
    made, and the last location is left as it was. *)
Theorem form_submit_city_not_found net parse p status rs :
  let city := trim (cityInput_value p) in
  city ≠ [] →
  isWellFormed city = true →
  geocoding net (geocode_request city) = Response status (Some (GeoJson rs)) →
  ok status = true →
  rs = None ∨ rs = Some [] →
  (∀ q, geocodeCity net city q = (inr None, log_fetch (geocode_request city) q))
  ∧ ∃ p', form_submit net parse p = (inr (), p')
      ∧ currentEl p' = empty_html
      ∧ errorEl p' = "City not found. Try again."
      ∧ console p' = console p
      ∧ fetched p' = (fetched p ++ [geocode_request city])%list
      ∧ lastLocation p' = lastLocation p.
Proof.
  intros city Hcity Hwf Hnet Hok Hrs.
  pose proof (geocode_outcome_not_found _ _ _ _ Hnet Hok Hrs) as Hout.
  split.
  - intros q. by rewrite (geocodeCity_run _ _ _ Hwf), Hout.
  - unfold form_submit. run. fold city.
    destruct city as [|c city'] eqn:Ecity; [done|]. cbn [falsy].
    rewrite (geocodeCity_run _ _ _ Hwf), Hout. run. ends.
Qed.

Lemma form_submit_city_not_found_witness :
  ∃ p', form_submit Sample.net_nowhere Sample.strict Sample.typed_paris = (inr (), p')
      ∧ currentEl p' = empty_html
      ∧ errorEl p' = "City not found. Try again.".
Proof.
  destruct (form_submit_city_not_found Sample.net_nowhere Sample.strict
              Sample.typed_paris 200 None)
    as [_ (p' & Hrun & Hcur & Herr & _)].
  - vm_compute. discriminate.
  - vm_compute. reflexivity.
  - reflexivity.
  - vm_compute. reflexivity.
  - left. reflexivity.
  - exists p'. split; [exact Hrun|]. split; [exact Hcur | exact Herr].
Defined.

Lemma weather_outcome_fails net lat lon tempUnit :
  fails (forecast net (weather_request lat lon tempUnit)) →
  ∃ e, weather_outcome net lat lon tempUnit = inl e.
Proof.
  unfold fails, weather_outcome.
  destruct (forecast net _) as [|status body]; [by eauto|].
  intros ->. by eauto.
Qed.

Lemma geocode_outcome_first net city status r rest :
  geocoding net (geocode_request city)
    = Response status (Some (GeoJson (Some (r :: rest)))) →
  ok status = true →
  geocode_outcome net city = inr (Some r).
Proof. intros Hnet Hok. unfold geocode_outcome. by rewrite Hnet, Hok. Qed.

(** C5: when the geocoder resolves the city and the forecast call then
    fails (rejected, or a status outside 200-299), the submit handler ends
    normally (nothing escapes it), both display regions are empty and the
    error line reads "Something went wrong fetching weather.". *)
Theorem form_submit_weather_failure net parse p status r rest :
  let city := trim (cityInput_value p) in
  city ≠ [] →
  geocoding net (geocode_request city)
    = Response status (Some (GeoJson (Some (r :: rest)))) →
  ok status = true →
  fails (forecast net (weather_request (latitude r) (longitude r)
                         (unit_param (unitToggle_checked p)))) →
  ∃ p', form_submit net parse p = (inr (), p')
      ∧ currentEl p' = empty_html
      ∧ forecastEl p' = empty_html
      ∧ errorEl p' = "Something went wrong fetching weather.".
Proof.
  intros city Hcity Hnet Hok Hfail.
  destruct (weather_outcome_fails _ _ _ _ Hfail) as [e He].
  unfold form_submit. run. fold city.
  destruct city as [|c city'] eqn:Ecity; [done|]. cbn [falsy].
  destruct (isWellFormed (c :: city')) eqn:Hwf.
  - rewrite (geocodeCity_run _ _ _ Hwf), (geocode_outcome_first _ _ _ _ _ Hnet Hok).
    run. rewrite fetchWeather_run, He. run. ends.
  - rewrite (geocodeCity_ill_formed _ _ _ Hwf). run. ends.
Qed.

Lemma form_submit_weather_failure_witness :
  ∃ p', form_submit Sample.net_no_forecast Sample.strict Sample.typed_paris = (inr (), p')
      ∧ currentEl p' = empty_html
      ∧ forecastEl p' = empty_html
      ∧ errorEl p' = "Something went wrong fetching weather.".
Proof.
  apply (form_submit_weather_failure Sample.net_no_forecast Sample.strict
           Sample.typed_paris 200 Sample.paris []).
  - vm_compute. discriminate.
  - reflexivity.
  - vm_compute. reflexivity.
  - vm_compute. reflexivity.
Defined.

(** ** The geolocation button *)

Lemma on_position_restores net parse lat lon p :
  ∃ p', on_position net parse lat lon p = (inr (), p')
      ∧ geoBtn_disabled p' = false
      ∧ geoBtn_textContent p' = "Use my location".
Proof.
  unfold on_position. run. rewrite fetchWeather_run.
  destruct (weather_outcome net lat lon _) as [e|data]; run; [ends|].
  render_cases parse (Location "Your location" EmptyString lat lon) data; ends.
Qed.

Lemma on_position_error_restores message p :
  ∃ p', on_position_error message p = (inr (), p')
      ∧ geoBtn_disabled p' = false
      ∧ geoBtn_textContent p' = "Use my location".
Proof. unfold on_position_error. run. eexists; split; [reflexivity|]; done. Qed.

(** C6: whenever the click handler has disabled the button and the
    platform reports a position or an error, the run ends normally with the
    button enabled and labelled "Use my location": after a rendering, after
    a failed forecast call, after a rendering that throws, and after a
    denial, a platform error or a timeout. The same holds for either
    callback from whatever page it is called on. *)
Theorem geoBtn_click_restores_button net parse result p :
  (∃ p', geoBtn_click net parse (Some result) p = (inr (), p')
       ∧ geoBtn_disabled p' = false
       ∧ geoBtn_textContent p' = "Use my location")
  ∧ (∀ q lat lon, ∃ q', on_position net parse lat lon q = (inr (), q')
       ∧ geoBtn_disabled q' = false
       ∧ geoBtn_textContent q' = "Use my location")
  ∧ (∀ q message, ∃ q', on_position_error message q = (inr (), q')
       ∧ geoBtn_disabled q' = false
       ∧ geoBtn_textContent q' = "Use my location").
Proof.
  split; [|split].
  - unfold geoBtn_click. run. destruct result as [lat lon|message].
    + apply on_position_restores.
    + apply on_position_error_restores.
  - intros. apply on_position_restores.
  - intros. apply on_position_error_restores.
Qed.

(** ** The unit toggle and the last location *)

Lemma unitToggle_change_fetches net parse p loc :
  lastLocation p = Some loc →
  ∃ p', unitToggle_change net parse p = (inr (), p')
      ∧ fetched p'
        = (fetched p ++ [weather_request (latitude loc) (longitude loc)
                          (unit_param (unitToggle_checked p))])%list
      ∧ lastLocation p' = Some loc.
Proof.
  intros Hloc. unfold unitToggle_change. run. repeat (rewrite Hloc; run).
  rewrite fetchWeather_run.
  destruct (weather_outcome net _ _ _) as [e|data]; run; [ends|].
  render_cases parse loc data; ends.
Qed.

Lemma unitToggle_change_noop net parse p :
  lastLocation p = None → unitToggle_change net parse p = (inr (), p).
Proof. intros Hloc. unfold unitToggle_change. run. by rewrite Hloc. Qed.

Lemma on_position_fetch_failure net parse lat lon p e :
  (fetchWeather net lat lon (unit_param (unitToggle_checked p)) p).1 = inl e →
  ∃ p', on_position net parse lat lon p = (inr (), p')
      ∧ lastLocation p' = lastLocation p
      ∧ unitToggle_checked p' = unitToggle_checked p
      ∧ errorEl p' = "Could not fetch weather for your location.".
Proof.
  rewrite fetchWeather_run. cbn [fst]. intros He.
  unfold on_position. run. rewrite fetchWeather_run, He. run.
  eexists; split; [reflexivity|]; run; done.
Qed.

(** C10: if [fetchWeather] throws in the success callback of the
    geolocation request, the callback ends normally and [lastLocation] is
    what it was; a later change of the unit toggle then either does nothing
    (no location was ever stored) or asks the forecast for the location
    stored before, not for the coordinates the platform reported. *)
Theorem geolocation_failure_keeps_lastLocation net parse lat lon p e :
  (fetchWeather net lat lon (unit_param (unitToggle_checked p)) p).1 = inl e →
  ∃ p', on_position net parse lat lon p = (inr (), p')
      ∧ lastLocation p' = lastLocation p
      ∧ ∀ net',
          match lastLocation p with
          | None => unitToggle_change net' parse p' = (inr (), p')
          | Some loc =>
              ∃ p'', unitToggle_change net' parse p' = (inr (), p'')
                ∧ fetched p''
                  = (fetched p' ++ [weather_request (latitude loc) (longitude loc)
                                     (unit_param (unitToggle_checked p'))])%list
          end.
Proof.
  intros He.
  destruct (on_position_fetch_failure _ parse _ _ _ _ He)
    as (p' & Hrun & Hloc & _).
  exists p'. split; [done|]. split; [done|]. intros net'.
  destruct (lastLocation p) as [loc|] eqn:Hp.
  - destruct (unitToggle_change_fetches net' parse p' loc Hloc)
      as (p'' & ? & ? & _).
    by eauto.
  - by apply unitToggle_change_noop.
Qed.

Lemma geolocation_failure_keeps_lastLocation_witness :
  ∃ p', on_position Sample.net_no_forecast Sample.strict 51.5 (-0.12) Sample.seen_paris
        = (inr (), p')
      ∧ lastLocation p' = Some Sample.paris.
Proof.
  destruct (geolocation_failure_keeps_lastLocation Sample.net_no_forecast
              Sample.strict 51.5 (-0.12) Sample.seen_paris
              (HttpError "weather" 500))
    as (p' & Hrun & Hloc & _).
  - vm_compute. reflexivity.
  - exists p'. split; [exact Hrun | exact Hloc].
Defined.

(** ** The forecast grid *)

Lemma shortest_le_time d : (Daily.shortest d ≤ length (Daily.time d))%nat.
Proof.
  unfold Daily.shortest, Daily.fields, Daily.field_length.
  destruct (Daily.precipitation_probability_max d); cbn; lia.
Qed.

Lemma shortest_equal_lengths d :
  Daily.equal_lengths d → Daily.shortest d = length (Daily.time d).
Proof.
  intros Heq.
  pose proof (Heq Daily.f_temperature_2m_max _ eq_refl).
  pose proof (Heq Daily.f_temperature_2m_min _ eq_refl).
  pose proof (Heq Daily.f_weathercode _ eq_refl).
  pose proof (Heq Daily.f_precipitation_probability_max) as Hp.
  unfold Daily.shortest, Daily.fields, Daily.field_length in *.
  destruct (Daily.precipitation_probability_max d); cbn in *;
    [specialize (Hp _ eq_refl)|]; lia.
Qed.

Lemma shown_cards_length d u :
  length (day_card_at d u <$> seq 0 (shown_days d))
  = Nat.min 5 (length (Daily.time d)).
Proof. by rewrite length_fmap, length_seq. Qed.

Lemma shown_cards_lookup d u k :
  (k < shown_days d)%nat →
  (day_card_at d u <$> seq 0 (shown_days d)) !! k = Some (day_card_at d u k).
Proof. intros Hk. by rewrite list_lookup_fmap, lookup_seq_lt. Qed.


(** C2, as the code has it: [renderForecast] shows min(5, length of
    [daily.time]) cards, the card in place [k] being the card of day [k];
    each index it reads is below that number, hence within [daily.time];
    when all the sequences present have the length of [daily.time], each
    read is within the shortest of them. *)
Theorem renderForecast_shown_days data d useF p :
  daily data = Some d →
  ∃ p' cards new,
    renderForecast data useF p = (inr (), p')
    ∧ forecastEl p' = ForecastPanel cards
    ∧ length cards = Nat.min 5 (length (Daily.time d))
    ∧ (∀ k, (k < length cards)%nat →
         cards !! k = Some (day_card_at d (unit_suffix useF) k))
    ∧ reads p' = (reads p ++ new)%list
    ∧ (∀ r, r ∈ new → (r.2 < Nat.min 5 (length (Daily.time d)))%nat)
    ∧ (Daily.equal_lengths d →
         ∀ r, r ∈ new → (r.2 < Daily.shortest d)%nat ∧ in_bounds d r).
Proof.
  intros Hd. rewrite (renderForecast_run _ _ _ _ Hd).
  eexists _, _, _. split; [reflexivity|].
  unfold with_days. run. cbn [app].
  split; [reflexivity|]. split; [apply shown_cards_length|].
  split; [|split; [reflexivity|split]].
  - intros k. rewrite shown_cards_length. apply shown_cards_lookup.
  - intros r Hr. by apply shown_reads_index in Hr.
  - intros Heq r Hr. pose proof (shown_reads_index _ _ Hr) as Hlt.
    unfold shown_days in Hlt. split.
    + rewrite (shortest_equal_lengths _ Heq). lia.
    + intros n Hn. apply Heq in Hn. lia.
Qed.

Lemma renderForecast_shown_days_witness :
  ∃ p' cards new,
    renderForecast Sample.weather false Sample.typed_paris = (inr (), p')
    ∧ forecastEl p' = ForecastPanel cards
    ∧ length cards = 5%nat
    ∧ reads p' = new
    ∧ (∀ r, r ∈ new → (r.2 < Daily.shortest Sample.week)%nat).
Proof.
  destruct (renderForecast_shown_days Sample.weather Sample.week false
              Sample.typed_paris eq_refl)
    as (p' & cards & new & Hrun & Hpanel & Hlen & _ & Hreads & _ & Hshort).
  assert (Daily.equal_lengths Sample.week) as Heq.
  { intros f n. destruct f; cbn; intros Hn; injection Hn as <-; reflexivity. }
  exists p', cards, new.
  split; [exact Hrun|]. split; [exact Hpanel|]. split; [exact Hlen|].
  split; [exact Hreads|].
  intros r Hr. exact (proj1 (Hshort Heq r Hr)).
Defined.

(** Two days in [daily.time] but one maximum temperature: the loop runs
    for day 1 and reads [temperature_2m_max[1]], past the end of the
    shortest sequence. *)
Lemma renderForecast_reads_past_shortest :
  let p' := (renderForecast (WeatherJson None (Some Sample.ragged)) false
               (Sample.fresh [])).2 in
  (Daily.f_temperature_2m_max, 1%nat) ∈ reads p'
  ∧ Daily.shortest Sample.ragged = 1%nat
  ∧ ¬ (∀ r, r ∈ reads p' → (r.2 < Daily.shortest Sample.ragged)%nat).
Proof.
  cbn zeta.
  rewrite (renderForecast_run (WeatherJson None (Some Sample.ragged))
             Sample.ragged false (Sample.fresh []) eq_refl). cbn [snd].
  assert ((Daily.f_temperature_2m_max, 1%nat)
            ∈ reads (with_days Sample.ragged (unit_suffix false)
                       (seq 0 (shown_days Sample.ragged)) []
                       (set_forecastEl (ForecastPanel []) (Sample.fresh [])))) as Hin.
  { vm_compute. do 5 apply list_elem_of_further. apply list_elem_of_here. }
  split; [exact Hin|]. split; [reflexivity|].
  intros Hall. specialize (Hall _ Hin). vm_compute in Hall. lia.
Qed.

Lemma weather_outcome_ok net lat lon tempUnit status data :
  forecast net (weather_request lat lon tempUnit) = Response status (Some data) →
  ok status = true →
  weather_outcome net lat lon tempUnit = inr data.
Proof. intros Hnet Hok. unfold weather_outcome. by rewrite Hnet, Hok. Qed.




(** ** Further properties of the handlers *)

Lemma try_catch_ends (body : M unit) (handler : exn → M unit) p :
  (∀ e q, ∃ q', handler e q = (inr (), q')) →
  ∃ p', try_catch body handler p = (inr (), p').
Proof.
  intros Hh. unfold try_catch. destruct (body p) as [[e|[]] q]; by eauto.
Qed.

Lemma modify_bind {B} (f : page → page) (k : unit → M B) p :
  (modify f ≫= k) p = k () (f p).
Proof. reflexivity. Qed.

Lemma gets_bind {A B} (f : page → A) (k : A → M B) p :
  (gets f ≫= k) p = k (f p) p.
Proof. reflexivity. Qed.

(** The submit handler and the change handler end normally on every page
    and every network, and so does the click handler whatever the platform
    reports: no exception leaves a handler, be it a city that cannot be
    encoded, a transport failure, an error status, a body that does not
    parse, a body that lacks [current_weather] or [daily], or a heading
    whose markup makes the parser lose the [big-temp] element. *)
Theorem handlers_never_throw net parse p :
  (∃ p', form_submit net parse p = (inr (), p'))
  ∧ (∃ p', unitToggle_change net parse p = (inr (), p'))
  ∧ (∀ geolocation, ∃ p', geoBtn_click net parse geolocation p = (inr (), p')).
Proof.
  split; [|split].
  - unfold form_submit, showError.
    rewrite (gets_bind (λ p, trim (cityInput_value p))).
    cbn beta. destruct (falsy (trim (cityInput_value p))); [eexists; reflexivity|].
    rewrite !modify_bind. apply try_catch_ends.
    intros e q. eexists. reflexivity.
  - destruct (lastLocation p) as [loc|] eqn:Hloc.
    + destruct (unitToggle_change_fetches net parse p loc Hloc) as (p' & ? & _).
      by eauto.
    + rewrite (unitToggle_change_noop net parse p Hloc). by eauto.
  - intros [result|].
    + unfold geoBtn_click. run. destruct result as [lat lon|message].
      * destruct (on_position_restores net parse lat lon
                    (set_geoBtn_textContent "Locating…"
                       (set_geoBtn_disabled true (set_errorEl EmptyString p))))
          as (p' & ? & _).
        run. by eauto.
      * unfold on_position_error. run. eexists. reflexivity.
    + unfold geoBtn_click. run. eexists. reflexivity.
Qed.

Lemma geocode_outcome_fails net city :
  fails (geocoding net (geocode_request city))
  ∨ (∃ status, geocoding net (geocode_request city) = Response status None) →
  ∃ e, geocode_outcome net city = inl e.
Proof.
  unfold fails, geocode_outcome.
  intros [H | [status H]].
  - destruct (geocoding net _) as [|status body]; [by eauto|].
    rewrite H. by eauto.
  - rewrite H. destruct (ok status); by eauto.
Qed.



(** A search for a well-formed city whose geocoding call fails (rejected,
    an error status, or a body that does not parse) stops there: no
    forecast is requested, the
    last location is kept, both regions are emptied and the error line
    shows the generic message. *)
Theorem form_submit_geocode_failure net parse p :
  let city := trim (cityInput_value p) in
  city ≠ [] →
  isWellFormed city = true →
  fails (geocoding net (geocode_request city))
  ∨ (∃ status, geocoding net (geocode_request city) = Response status None) →
  ∃ p', form_submit net parse p = (inr (), p')
      ∧ fetched p' = (fetched p ++ [geocode_request city])%list
      ∧ lastLocation p' = lastLocation p
      ∧ currentEl p' = empty_html
      ∧ forecastEl p' = empty_html
      ∧ errorEl p' = "Something went wrong fetching weather.".
Proof.
  intros city Hcity Hwf Hfail.
  destruct (geocode_outcome_fails _ _ Hfail) as [e He].
  unfold form_submit. run. fold city.
  destruct city as [|ch city'] eqn:Ecity; [done|]. cbn [falsy].
  rewrite (geocodeCity_run _ _ _ Hwf), He. run. ends.
Qed.

Lemma form_submit_geocode_failure_witness :
  ∃ p', form_submit (Network (λ _, Rejected) (λ _, Rejected)) Sample.strict
          Sample.typed_paris
        = (inr (), p')
      ∧ fetched p' = [geocode_request [80; 97; 114; 105; 115]]
      ∧ lastLocation p' = None.
Proof.
  destruct (form_submit_geocode_failure (Network (λ _, Rejected) (λ _, Rejected))
              Sample.strict Sample.typed_paris)
    as (p' & Hrun & Hfetched & Hloc & _).
  - vm_compute. discriminate.
  - vm_compute. reflexivity.
  - left. exact I.
  - exists p'. split; [exact Hrun|]. split; [exact Hfetched | exact Hloc].
Defined.

(** In a search for a well-formed city, the place found is stored before
    the forecast is asked
    for: when the forecast call fails, or answers with a body that lacks
    [current_weather] or [daily], the last location is nevertheless the new
    place, both calls have been made, both regions are empty and the error
    line shows the generic message. *)
Theorem form_submit_failure_after_geocode net parse p status r rest :
  let city := trim (cityInput_value p) in
  let weather := weather_request (latitude r) (longitude r)
                   (unit_param (unitToggle_checked p)) in
  city ≠ [] →
  isWellFormed city = true →
  geocoding net (geocode_request city)
    = Response status (Some (GeoJson (Some (r :: rest)))) →
  ok status = true →
  fails (forecast net weather)
  ∨ (∃ status' data,
       forecast net weather = Response status' (Some data)
       ∧ (current_weather data = None ∨ daily data = None)) →
  ∃ p', form_submit net parse p = (inr (), p')
      ∧ lastLocation p' = Some r
      ∧ fetched p' = (fetched p ++ [geocode_request city; weather])%list
      ∧ currentEl p' = empty_html
      ∧ forecastEl p' = empty_html
      ∧ errorEl p' = "Something went wrong fetching weather.".
Proof.
  intros city weather Hcity Hwf Hgeo Hok Hfail.
  unfold form_submit. run. fold city.
  destruct city as [|ch city'] eqn:Ecity; [done|]. cbn [falsy].
  rewrite (geocodeCity_run _ _ _ Hwf), (geocode_outcome_first _ _ _ _ _ Hgeo Hok).
  run. rewrite fetchWeather_run. fold weather.
  destruct Hfail as [Hfail | (status' & data & Hnet & Hmissing)].
  - destruct (weather_outcome_fails _ _ _ _ Hfail) as [e He]. rewrite He. run.
    eexists. split; [reflexivity|]. run. rewrite <- app_assoc. done.
  - unfold weather_outcome. fold weather. rewrite Hnet.
    destruct (ok status'); run;
      [|eexists; split; [reflexivity|]; run; rewrite <- app_assoc; done].
    render_cases parse r data;
      try (destruct Hmissing; congruence);
      eexists; (split; [reflexivity|]); run; rewrite <- app_assoc; done.
Qed.

Lemma form_submit_failure_after_geocode_witness :
  ∃ p', form_submit Sample.net_no_forecast Sample.strict Sample.typed_paris = (inr (), p')
      ∧ lastLocation p' = Some Sample.paris.
Proof.
  destruct (form_submit_failure_after_geocode Sample.net_no_forecast
              Sample.strict Sample.typed_paris 200 Sample.paris [])
    as (p' & Hrun & Hloc & _).
  - vm_compute. discriminate.
  - vm_compute. reflexivity.
  - reflexivity.
  - vm_compute. reflexivity.
  - left. vm_compute. reflexivity.
  - exists p'. split; [exact Hrun | exact Hloc].
Defined.

Lemma trim_start_nonblank (s : jsstring) :
  forallb is_white_space s = false →
  ∃ c rest, trim_start s = c :: rest ∧ is_white_space c = false.
Proof.
  induction s as [|c s IH]; cbn; [done|].
  destruct (is_white_space c) eqn:Hc; cbn; [exact IH|]. by eauto.
Qed.

Lemma forallb_reverse (s : jsstring) :
  forallb is_white_space (reverse s) = forallb is_white_space s.
Proof.
  induction s as [|c s IH]; [done|].
  rewrite reverse_cons, forallb_app. cbn. rewrite IH.
  destruct (is_white_space c), (forallb is_white_space s); reflexivity.
Qed.

Lemma trim_nonblank (s : jsstring) :
  forallb is_white_space s = false → trim s ≠ [].
Proof.
  intros Hs. destruct (trim_start_nonblank s Hs) as (c & rest & Hstart & Hc).
  unfold trim, trim_end. rewrite Hstart.
  destruct (trim_start_nonblank (reverse (c :: rest))) as (c' & rest' & -> & _).
  - rewrite forallb_reverse. cbn. by rewrite Hc.
  - rewrite reverse_cons. by destruct (reverse rest').
Qed.

(** A search for a text that is not blank and whose trimmed form is
    well-formed UTF-16 asks the geocoder for that trimmed form, and makes
    at most one more call; the log of calls has grown, so the page it
    leaves is not the page it found. *)
Theorem form_submit_nonblank net parse p :
  forallb is_white_space (cityInput_value p) = false →
  isWellFormed (trim (cityInput_value p)) = true →
  ∃ p' more,
    form_submit net parse p = (inr (), p')
    ∧ fetched p'
      = (fetched p ++ geocode_request (trim (cityInput_value p)) :: more)%list
    ∧ (length more ≤ 1)%nat
    ∧ p' ≠ p.
Proof.
  intros Hs Hwf. pose proof (trim_nonblank _ Hs) as Hcity.
  assert (∀ (q : page) l, fetched q = (fetched p ++ geocode_request (trim (cityInput_value p)) :: l)%list → q ≠ p) as Hne.
  { intros q l Hq ->. apply (f_equal length) in Hq.
    rewrite length_app in Hq. cbn in Hq. lia. }
  unfold form_submit. run.
  destruct (trim (cityInput_value p)) as [|ch city'] eqn:Ecity; [done|].
  cbn [falsy]. rewrite (geocodeCity_run _ _ _ Hwf).
  destruct (geocode_outcome net _) as [e|[r|]]; run.
  1, 3: eexists _, []; split; [reflexivity|]; run;
        split; [reflexivity|]; split; [cbn; lia|]; eapply Hne; reflexivity.
  rewrite fetchWeather_run.
  assert (∀ q, fetched q = ((fetched p ++ [geocode_request (ch :: city')]) ++ [weather_request (latitude r) (longitude r)
                  (unit_param (unitToggle_checked p))])%list →
     ∃ p' more, (inr (), q) = (@inr exn () (), p') ∧ fetched p' = (fetched p ++ geocode_request (ch :: city') :: more)%list ∧ (length more ≤ 1)%nat ∧ p' ≠ p) as Hend.
  { intros q Hq. eexists q, [_]. split; [reflexivity|].
    rewrite Hq, <- app_assoc. split; [reflexivity|]. split; [cbn; lia|].
    eapply Hne. rewrite Hq, <- app_assoc. reflexivity. }
  destruct (weather_outcome net _ _ _) as [e|data]; run; [by apply Hend|].
  render_cases parse r data; by apply Hend.
Qed.

Lemma form_submit_nonblank_witness :
  ∃ p' more,
    form_submit Sample.net_up Sample.strict (Sample.fresh [32; 80; 97; 32]) = (inr (), p')
    ∧ fetched p' = geocode_request [80; 97] :: more.
Proof.
  destruct (form_submit_nonblank Sample.net_up Sample.strict
              (Sample.fresh [32; 80; 97; 32]))
    as (p' & more & Hrun & Hfetched & _).
  - vm_compute. reflexivity.
  - vm_compute. reflexivity.
  - exists p', more. split; [exact Hrun | exact Hfetched].
Defined.

(** ** Further properties of the API helpers *)

(** [geocodeCity] on a name that is not well-formed UTF-16 throws a
    [URIError] without making a call or touching the page. On a
    well-formed name it makes one call and touches nothing else on the
    page; an error status throws, whatever the body holds; with a success
    status it returns the first result and ignores the others. *)
Theorem geocodeCity_first_result_only net city p :
  let req := geocode_request city in
  (isWellFormed city = false → geocodeCity net city p = (inl URIError, p))
  ∧ (isWellFormed city = true →
     (geocodeCity net city p).2 = log_fetch req p
     ∧ (∀ status body,
          geocoding net req = Response status body → ok status = false →
          (geocodeCity net city p).1 = inl (HttpError "geocoding" status))
     ∧ (∀ status r rest,
          geocoding net req
            = Response status (Some (GeoJson (Some (r :: rest)))) →
          ok status = true →
          (geocodeCity net city p).1 = inr (Some r))).
Proof.
  intros req. split; [apply geocodeCity_ill_formed|].
  intros Hwf. rewrite (geocodeCity_run _ _ _ Hwf). cbn [fst snd].
  split; [reflexivity|]. unfold geocode_outcome. fold req.
  split.
  - intros status body -> ->. reflexivity.
  - intros status r rest -> ->. reflexivity.
Qed.

Lemma geocodeCity_first_result_only_witness :
  geocodeCity Sample.net_up Sample.lone_surrogate Sample.typed_paris
  = (inl URIError, Sample.typed_paris)
  ∧ (geocodeCity
       (Network (λ _, Response 200 (Some (GeoJson (Some
                   [Sample.paris; Location "Paris" "United States" 33.66 (-95.55)]))))
                (λ _, Rejected))
       [80; 97; 114; 105; 115] Sample.typed_paris).1
    = inr (Some Sample.paris).
Proof.
  split.
  - apply (proj1 (geocodeCity_first_result_only _ _ _)). vm_compute. reflexivity.
  - refine (proj2 (proj2 (proj2 (geocodeCity_first_result_only _
                                   [80; 97; 114; 105; 115] _) _))
              200 Sample.paris
              [Location "Paris" "United States" 33.66 (-95.55)] _ _).
    + vm_compute. reflexivity.
    + reflexivity.
    + vm_compute. reflexivity.
Defined.

(** [fetchWeather] makes one call and touches nothing else on the page.
    An error status throws, whatever the body holds; with a success status
    the parsed body is returned as it is, also when it lacks
    [current_weather] or [daily]. *)
Theorem fetchWeather_no_validation net lat lon tempUnit p :
  let req := weather_request lat lon tempUnit in
  (fetchWeather net lat lon tempUnit p).2 = log_fetch req p
  ∧ (∀ status body,
       forecast net req = Response status body → ok status = false →
       (fetchWeather net lat lon tempUnit p).1 = inl (HttpError "weather" status))
  ∧ (∀ status data,
       forecast net req = Response status (Some data) → ok status = true →
       (fetchWeather net lat lon tempUnit p).1 = inr data).
Proof.
  intros req. rewrite fetchWeather_run. cbn [fst snd].
  split; [reflexivity|]. unfold weather_outcome. fold req.
  split.
  - intros status body -> ->. reflexivity.
  - intros status data -> ->. reflexivity.
Qed.

Lemma fetchWeather_no_validation_witness :
  (fetchWeather (Network (λ _, Rejected)
                   (λ _, Response 200 (Some (WeatherJson None None))))
     48.86 2.35 "celsius" Sample.typed_paris).1
  = inr (WeatherJson None None).
Proof.
  apply (proj2 (proj2 (fetchWeather_no_validation _ _ _ _ _)) 200).
  - reflexivity.
  - vm_compute. reflexivity.
Defined.

(** ** Further properties of the renderers *)

Lemma makeIconImg_moon (code : js Z) (isDay : bool) :
  textContent (makeIconImg code isDay) = Glyph.moon
  ↔ code = Val 0 ∧ isDay = false.
Proof.
  unfold makeIconImg. cbn [textContent]. destruct code as [| |z]; cbn [includes].
  1, 2: split; [discriminate | by intros [? _]].
  destruct (bool_decide_reflect (z ∈ [0])) as [Hz|Hz].
  - apply list_elem_of_singleton in Hz. subst z.
    destruct isDay; split; intros Hx; try discriminate Hx; try done.
    by destruct Hx.
  - split.
    + intros Hx. exfalso.
      repeat (case_bool_decide; [discriminate Hx|]). discriminate Hx.
    + intros [[= ->] _]. exfalso. apply Hz. left.
Qed.

(** [renderForecast] replaces the forecast region: what it leaves there
    does not depend on what the region held, and it writes to no other
    region, to no session state and makes no call. This holds also when
    it throws. *)
Theorem renderForecast_frame data useF p q :
  let p' := (renderForecast data useF p).2 in
  forecastEl p' = forecastEl (renderForecast data useF q).2
  ∧ currentEl p' = currentEl p
  ∧ errorEl p' = errorEl p
  ∧ lastLocation p' = lastLocation p
  ∧ fetched p' = fetched p
  ∧ geoBtn_disabled p' = geoBtn_disabled p
  ∧ geoBtn_textContent p' = geoBtn_textContent p.
Proof.
  destruct (daily data) as [d|] eqn:Hd.
  - rewrite !(renderForecast_run _ _ _ _ Hd). unfold with_days. run. done.
  - rewrite !(renderForecast_throw _ _ _ Hd). run. done.
Qed.

Lemma rendered_card data d useF p p' cards k card :
  daily data = Some d →
  renderForecast data useF p = (inr (), p') →
  forecastEl p' = ForecastPanel cards →
  cards !! k = Some card →
  (k < shown_days d)%nat ∧ card = day_card_at d (unit_suffix useF) k.
Proof.
  intros Hd. rewrite (renderForecast_run _ _ _ _ Hd). intros [= <-].
  unfold with_days. run. cbn [app]. intros [= <-].
  rewrite list_lookup_fmap. intros Hk.
  destruct (seq 0 (shown_days d) !! k) as [i|] eqn:Hi; [|done].
  apply lookup_seq in Hi as [-> ?]. cbn in Hk. by injection Hk as <-.
Qed.

(** A card shows a precipitation line exactly when the response has the
    precipitation sequence and its slot for that day holds a number; a
    missing sequence, a short one or a [null] slot gives a card without
    the line, never an error. *)
Theorem renderForecast_precip data d useF p p' cards k card :
  daily data = Some d →
  renderForecast data useF p = (inr (), p') →
  forecastEl p' = ForecastPanel cards →
  cards !! k = Some card →
  ∀ q, precip card = Some q
       ↔ ∃ arr, Daily.precipitation_probability_max d = Some arr
                ∧ arr !! k = Some (Val q).
Proof.
  intros Hd Hrun Hpanel Hk q.
  destruct (rendered_card _ _ _ _ _ _ _ _ Hd Hrun Hpanel Hk) as [_ ->].
  unfold day_card_at, index. cbn [precip].
  destruct (Daily.precipitation_probability_max d) as [arr|]; cbn.
  - split.
    + intros Hq. exists arr. split; [reflexivity|].
      destruct (arr !! k) as [[| |x]|]; cbn in Hq; try discriminate Hq.
      by injection Hq as ->.
    + intros (arr0 & [= <-] & ->). reflexivity.
  - split; [discriminate | intros (? & ? & _); discriminate].
Qed.

Lemma renderForecast_precip_witness :
  precip (day_card_at Sample.week (unit_suffix false) 2) = Some 80%Q
  ↔ ∃ arr, Daily.precipitation_probability_max Sample.week = Some arr
           ∧ arr !! 2%nat = Some (Val 80%Q).
Proof.
  apply (renderForecast_precip Sample.weather Sample.week false
           Sample.typed_paris
           (renderForecast Sample.weather false Sample.typed_paris).2
           (day_card_at Sample.week (unit_suffix false) <$> seq 0 5) 2).
  - reflexivity.
  - vm_compute. reflexivity.
  - vm_compute. reflexivity.
  - reflexivity.
Defined.

Lemma index_past_end {A} (arr : list (js A)) (k : nat) :
  (length arr ≤ k)%nat → index arr k = Undefined.
Proof. intros Hk. unfold index. by rewrite lookup_ge_None_2. Qed.

(** When a sequence is shorter than [daily.time], the cards of the days it
    does not reach are still rendered, from [undefined]: the description
    is the placeholder and the icon the fallback glyph for a missing code,
    the temperature is [NaN] for a missing maximum or minimum. *)
Theorem renderForecast_short_sequences data d useF p p' cards k card :
  daily data = Some d →
  renderForecast data useF p = (inr (), p') →
  forecastEl p' = ForecastPanel cards →
  cards !! k = Some card →
  ((length (Daily.weathercode d) ≤ k)%nat →
     card_desc card = placeholder
     ∧ textContent (card_icon card) = Glyph.fallback)
  ∧ ((length (Daily.temperature_2m_max d) ≤ k)%nat → degrees (hi card) = RNaN)
  ∧ ((length (Daily.temperature_2m_min d) ≤ k)%nat → degrees (lo card) = RNaN).
Proof.
  intros Hd Hrun Hpanel Hk.
  destruct (rendered_card _ _ _ _ _ _ _ _ Hd Hrun Hpanel Hk) as [_ ->].
  unfold day_card_at. cbn [card_desc card_icon hi lo degrees].
  split; [|split]; intros Hlen; rewrite (index_past_end _ _ Hlen);
    try split; reflexivity.
Qed.

Lemma renderForecast_short_sequences_witness :
  degrees (hi (day_card_at Sample.ragged (unit_suffix false) 1)) = RNaN.
Proof.
  apply (renderForecast_short_sequences
           (WeatherJson None (Some Sample.ragged)) Sample.ragged false
           (Sample.fresh [])
           (renderForecast (WeatherJson None (Some Sample.ragged)) false
              (Sample.fresh [])).2
           (day_card_at Sample.ragged (unit_suffix false) <$> seq 0 2) 1).
  - reflexivity.
  - vm_compute. reflexivity.
  - vm_compute. reflexivity.
  - reflexivity.
  - cbn. lia.
Defined.

(** The forecast cards always carry the day icon: no card shows the night
    glyph, whatever the codes of the response. *)
Theorem renderForecast_day_icons data d useF p p' cards :
  daily data = Some d →
  renderForecast data useF p = (inr (), p') →
  forecastEl p' = ForecastPanel cards →
  Forall (λ card, textContent (card_icon card) ≠ Glyph.moon) cards.
Proof.
  intros Hd Hrun Hpanel. apply Forall_lookup. intros k card Hk.
  destruct (rendered_card _ _ _ _ _ _ _ _ Hd Hrun Hpanel Hk) as [_ ->].
  unfold day_card_at. cbn [card_icon].
  rewrite makeIconImg_moon. by intros [_ ?].
Qed.

Lemma renderForecast_day_icons_witness :
  Forall (λ card, textContent (card_icon card) ≠ Glyph.moon)
    (day_card_at Sample.week (unit_suffix false) <$> seq 0 5).
Proof.
  apply (renderForecast_day_icons Sample.weather Sample.week false
           Sample.typed_paris
           (renderForecast Sample.weather false Sample.typed_paris).2).
  - reflexivity.
  - vm_compute. reflexivity.
  - vm_compute. reflexivity.
Defined.



(** ** Further properties of the geolocation and unit handlers *)

(** A position whose forecast arrives: the callback stores a location
    named "Your location" with an empty country and the coordinates of the
    platform, makes the one forecast call for them (no geocoding), and
    renders both panels; the heading reads "Current — Your location". *)
Theorem on_position_renders net parse lat lon p status c d :
  let useF := unitToggle_checked p in
  let here := Location "Your location" EmptyString lat lon in
  forecast net (weather_request lat lon (unit_param useF))
    = Response status (Some (WeatherJson (Some c) (Some d))) →
  ok status = true →
  ∃ p' v,
    on_position net parse lat lon p = (inr (), p')
    ∧ lastLocation p' = Some here
    ∧ fetched p' = (fetched p ++ [weather_request lat lon (unit_param useF)])%list
    ∧ currentEl p' = CurrentPanel v
    ∧ v = current_view_at here c useF
    ∧ heading v = "Current — Your location"
    ∧ forecastEl p'
      = ForecastPanel (day_card_at d (unit_suffix useF) <$> seq 0 (shown_days d))
    ∧ errorEl p' = errorEl p.
Proof.
  intros useF here Hnet Hok.
  unfold on_position. run. rewrite fetchWeather_run. fold useF.
  rewrite (weather_outcome_ok _ _ _ _ _ _ Hnet Hok). run. fold here.
  rewrite (renderCurrent_run parse here (WeatherJson (Some c) (Some d)) c _ _
             eq_refl (your_location_kept parse lat lon)). run.
  rewrite (renderForecast_run (WeatherJson (Some c) (Some d)) d _ _ eq_refl).
  unfold with_days. run. cbn [app].
  eexists _, _. split; [reflexivity|]. run. done.
Qed.

Lemma on_position_renders_witness :
  ∃ p' v,
    on_position Sample.net_up Sample.strict 51.5 (-0.12) Sample.typed_paris = (inr (), p')
    ∧ lastLocation p' = Some (Location "Your location" EmptyString 51.5 (-0.12))
    ∧ currentEl p' = CurrentPanel v
    ∧ heading v = "Current — Your location".
Proof.
  destruct (on_position_renders Sample.net_up Sample.strict 51.5 (-0.12)
              Sample.typed_paris
              200 Sample.now Sample.week)
    as (p' & v & Hrun & Hloc & _ & Hcur & _ & Hhead & _).
  - reflexivity.
  - vm_compute. reflexivity.
  - exists p', v. split; [exact Hrun|]. split; [exact Hloc|].
    split; [exact Hcur | exact Hhead].
Defined.

(** A position whose forecast call fails: unlike the search, the callback
    leaves both display regions as they were; it shows its own message,
    logs the error, and has made the one call. *)
Theorem on_position_failure_keeps_display net parse lat lon p :
  let req := weather_request lat lon (unit_param (unitToggle_checked p)) in
  fails (forecast net req) →
  ∃ p' e,
    on_position net parse lat lon p = (inr (), p')
    ∧ currentEl p' = currentEl p
    ∧ forecastEl p' = forecastEl p
    ∧ errorEl p' = "Could not fetch weather for your location."
    ∧ console p' = (console p ++ [e])%list
    ∧ fetched p' = (fetched p ++ [req])%list.
Proof.
  intros req Hfail. destruct (weather_outcome_fails _ _ _ _ Hfail) as [e He].
  unfold on_position. run. rewrite fetchWeather_run. fold req. rewrite He. run.
  eexists _, e. split; [reflexivity|]. run. done.
Qed.

Lemma on_position_failure_keeps_display_witness :
  ∃ p', on_position Sample.net_no_forecast Sample.strict 51.5 (-0.12) Sample.typed_paris
        = (inr (), p')
      ∧ currentEl p' = empty_html
      ∧ errorEl p' = "Could not fetch weather for your location.".
Proof.
  destruct (on_position_failure_keeps_display Sample.net_no_forecast
              Sample.strict 51.5 (-0.12) Sample.typed_paris)
    as (p' & e & Hrun & Hcur & _ & Herr & _).
  - vm_compute. reflexivity.
  - exists p'. split; [exact Hrun|]. split; [exact Hcur | exact Herr].
Defined.

(** A position whose forecast arrives without [daily]: the location is
    already stored and the current panel already rendered when
    [renderForecast] throws; the callback leaves them so, with an empty
    grid in the forecast region, and shows its message. *)
Theorem on_position_partial_render net parse lat lon p status c :
  let useF := unitToggle_checked p in
  let here := Location "Your location" EmptyString lat lon in
  forecast net (weather_request lat lon (unit_param useF))
    = Response status (Some (WeatherJson (Some c) None)) →
  ok status = true →
  ∃ p',
    on_position net parse lat lon p = (inr (), p')
    ∧ lastLocation p' = Some here
    ∧ currentEl p' = CurrentPanel (current_view_at here c useF)
    ∧ forecastEl p' = ForecastPanel []
    ∧ errorEl p' = "Could not fetch weather for your location."
    ∧ console p' = (console p ++ [TypeError])%list.
Proof.
  intros useF here Hnet Hok.
  unfold on_position. run. rewrite fetchWeather_run. fold useF.
  rewrite (weather_outcome_ok _ _ _ _ _ _ Hnet Hok). run. fold here.
  rewrite (renderCurrent_run parse here (WeatherJson (Some c) None) c _ _
             eq_refl (your_location_kept parse lat lon)). run.
  rewrite (renderForecast_throw (WeatherJson (Some c) None) _ _ eq_refl). run.
  eexists. split; [reflexivity|]. run. done.
Qed.

Lemma on_position_partial_render_witness :
  ∃ p',
    on_position
      (Network (λ _, Rejected)
         (λ _, Response 200 (Some (WeatherJson (Some Sample.now) None))))
      Sample.strict 51.5 (-0.12) Sample.typed_paris = (inr (), p')
    ∧ forecastEl p' = ForecastPanel []
    ∧ errorEl p' = "Could not fetch weather for your location.".
Proof.
  destruct (on_position_partial_render
              (Network (λ _, Rejected)
                 (λ _, Response 200 (Some (WeatherJson (Some Sample.now) None))))
              Sample.strict 51.5 (-0.12) Sample.typed_paris 200 Sample.now)
    as (p' & Hrun & _ & _ & Hfc & Herr & _).
  - reflexivity.
  - vm_compute. reflexivity.
  - exists p'. split; [exact Hrun|]. split; [exact Hfc | exact Herr].
Defined.

(** Without a position no call is made and nothing but the error line and
    the button changes. A missing geolocation capability leaves the button
    alone. A platform error shows the platform's message when it has a
    non-empty one, and "Permission denied or unavailable." otherwise. *)
Theorem geoBtn_click_without_position net parse p :
  geoBtn_click net parse None p
    = (inr (), set_errorEl "Geolocation is not supported by your browser." p)
  ∧ ∀ message, ∃ p',
      geoBtn_click net parse (Some (PositionError message)) p = (inr (), p')
      ∧ fetched p' = fetched p
      ∧ currentEl p' = currentEl p
      ∧ forecastEl p' = forecastEl p
      ∧ lastLocation p' = lastLocation p
      ∧ errorEl p'
        = match message with
          | None | Some EmptyString => "Permission denied or unavailable."
          | Some m => m
          end.
Proof.
  split; [reflexivity|]. intros message.
  unfold geoBtn_click, on_position_error. run.
  eexists. split; [reflexivity|]. run.
  by destruct message as [[|a m]|].
Qed.

(** The change handler leaves the page as it found it exactly when no
    location is stored: with a location it always makes a call. *)
Theorem unitToggle_change_noop_iff net parse p :
  unitToggle_change net parse p = (inr (), p) ↔ lastLocation p = None.
Proof.
  split.
  - destruct (lastLocation p) as [loc|] eqn:Hloc; [|done].
    destruct (unitToggle_change_fetches net parse p loc Hloc) as (p' & -> & Hf & _).
    intros [= ->]. apply (f_equal length) in Hf.
    rewrite length_app in Hf. cbn in Hf. lia.
  - apply unitToggle_change_noop.
Qed.

(** A change of unit whose forecast call fails, or answers with a body
    that lacks [current_weather] or [daily]: both regions are emptied, the
    generic message is shown, the stored location is kept. *)
Theorem unitToggle_change_failure net parse p loc :
  let req := weather_request (latitude loc) (longitude loc)
               (unit_param (unitToggle_checked p)) in
  lastLocation p = Some loc →
  fails (forecast net req)
  ∨ (∃ status data,
       forecast net req = Response status (Some data)
       ∧ (current_weather data = None ∨ daily data = None)) →
  ∃ p', unitToggle_change net parse p = (inr (), p')
      ∧ currentEl p' = empty_html
      ∧ forecastEl p' = empty_html
      ∧ errorEl p' = "Something went wrong fetching weather."
      ∧ lastLocation p' = Some loc.
Proof.
  intros req Hloc Hfail.
  unfold unitToggle_change. run. repeat (rewrite Hloc; run).
  rewrite fetchWeather_run. fold req.
  destruct Hfail as [Hfail | (status & data & Hnet & Hmissing)].
  - destruct (weather_outcome_fails _ _ _ _ Hfail) as [e He]. rewrite He. run.
    eexists. split; [reflexivity|]. run. done.
  - unfold weather_outcome. fold req. rewrite Hnet.
    destruct (ok status); run; [|ends].
    render_cases parse loc data; try (destruct Hmissing; congruence); ends.
Qed.

Lemma unitToggle_change_failure_witness :
  ∃ p', unitToggle_change Sample.net_no_forecast Sample.strict Sample.seen_paris = (inr (), p')
      ∧ errorEl p' = "Something went wrong fetching weather."
      ∧ lastLocation p' = Some Sample.paris.
Proof.
  destruct (unitToggle_change_failure Sample.net_no_forecast Sample.strict
              Sample.seen_paris Sample.paris)
    as (p' & Hrun & _ & _ & Herr & Hloc).
  - reflexivity.
  - left. vm_compute. reflexivity.
  - exists p'. split; [exact Hrun|]. split; [exact Herr | exact Hloc].
Defined.

(** ** Icons against descriptions *)

(** [makeIconImg] gives a glyph other than the fallback exactly to the
    documented codes other than 56 and 57: no code without a description
    has an icon of its own. *)
Theorem makeIconImg_glyph_iff (z : Z) (isDay : bool) :
  textContent (makeIconImg (Val z) isDay) ≠ Glyph.fallback
  ↔ z ∈ documented_codes ∧ z ≠ 56 ∧ z ≠ 57.
Proof.
  split.
  - unfold makeIconImg, includes. cbn [textContent].
    repeat (case_bool_decide as Hz;
            [intros _; revert Hz; rewrite !elem_of_cons, elem_of_nil;
             intros Hz; destruct_or!; try done; subst z;
             (split; [apply (bool_decide_unpack _); vm_compute; exact I | lia])
            |clear Hz]).
    intros H. exfalso. apply H. reflexivity.
  - intros (? & ? & ?). by apply makeIconImg_documented_family.
Qed.

(** ** Handlers in sequence *)

Lemma form_submit_stores_location net parse p status r rest :
  let city := trim (cityInput_value p) in
  city ≠ [] →
  isWellFormed city = true →
  geocoding net (geocode_request city)
    = Response status (Some (GeoJson (Some (r :: rest)))) →
  ok status = true →
  ∃ p', form_submit net parse p = (inr (), p') ∧ lastLocation p' = Some r.
Proof.
  intros city Hcity Hwf Hgeo Hok.
  unfold form_submit. run. fold city.
  destruct city as [|ch city'] eqn:Ecity; [done|]. cbn [falsy].
  rewrite (geocodeCity_run _ _ _ Hwf), (geocode_outcome_first _ _ _ _ _ Hgeo Hok).
  run. rewrite fetchWeather_run.
  destruct (weather_outcome net _ _ _) as [e|data]; run; [ends|].
  render_cases parse r data; ends.
Qed.

(** Once a search for a well-formed city has resolved a place, whether or
    not its forecast could be shown, a later change of the unit toggle asks
    the forecast for that place, in the unit the checkbox then holds, and
    for nothing else. *)
Theorem toggle_after_search net parse p status r rest :
  let city := trim (cityInput_value p) in
  city ≠ [] →
  isWellFormed city = true →
  geocoding net (geocode_request city)
    = Response status (Some (GeoJson (Some (r :: rest)))) →
  ok status = true →
  ∃ p1, form_submit net parse p = (inr (), p1)
    ∧ ∀ net' b, ∃ p2,
        unitToggle_change net' parse (set_unitToggle_checked b p1) = (inr (), p2)
        ∧ fetched p2
          = (fetched p1
             ++ [weather_request (latitude r) (longitude r)
                   (if b then "fahrenheit" else "celsius")])%list.
Proof.
  intros city Hcity Hwf Hgeo Hok.
  destruct (form_submit_stores_location net parse p status r rest
              Hcity Hwf Hgeo Hok) as (p1 & Hrun & Hloc).
  exists p1. split; [exact Hrun|]. intros net' b.
  destruct (unitToggle_change_fetches net' parse (set_unitToggle_checked b p1) r)
    as (p2 & Hrun2 & Hf & _); [exact Hloc|].
  exists p2. split; [exact Hrun2 | exact Hf].
Qed.

Lemma toggle_after_search_witness :
  ∃ p1, form_submit Sample.net_no_forecast Sample.strict Sample.typed_paris = (inr (), p1)
    ∧ ∃ p2,
        unitToggle_change Sample.net_up Sample.strict (set_unitToggle_checked true p1)
        = (inr (), p2)
        ∧ fetched p2
          = (fetched p1 ++ [weather_request 48.86 2.35 "fahrenheit"])%list.
Proof.
  destruct (toggle_after_search Sample.net_no_forecast Sample.strict
              Sample.typed_paris 200 Sample.paris []) as (p1 & Hrun & Hnext).
  - vm_compute. discriminate.
  - vm_compute. reflexivity.
  - reflexivity.
  - vm_compute. reflexivity.
  - exists p1. split; [exact Hrun|]. exact (Hnext Sample.net_up true).
Defined.



(** ** Inputs that cannot be encoded or that hold markup *)

(** A search for a text that is not blank but is not well-formed UTF-16 (it
    holds a lone surrogate): [encodeURIComponent] throws before any call is
    made, the last location is kept, both regions are emptied, the error
    line shows the generic message and the [URIError] is logged. *)
Theorem form_submit_ill_formed net parse p :
  let city := trim (cityInput_value p) in
  city ≠ [] →
  isWellFormed city = false →
  ∃ p', form_submit net parse p = (inr (), p')
      ∧ fetched p' = fetched p
      ∧ lastLocation p' = lastLocation p
      ∧ currentEl p' = empty_html
      ∧ forecastEl p' = empty_html
      ∧ errorEl p' = "Something went wrong fetching weather."
      ∧ console p' = (console p ++ [URIError])%list.
Proof.
  intros city Hcity Hwf.
  unfold form_submit. run. fold city.
  destruct city as [|ch city'] eqn:Ecity; [done|]. cbn [falsy].
  rewrite (geocodeCity_ill_formed _ _ _ Hwf). run. ends.
Qed.

Lemma form_submit_ill_formed_witness :
  ∃ p', form_submit Sample.net_up Sample.strict
          (Sample.fresh Sample.lone_surrogate) = (inr (), p')
      ∧ fetched p' = []
      ∧ errorEl p' = "Something went wrong fetching weather.".
Proof.
  destruct (form_submit_ill_formed Sample.net_up Sample.strict
              (Sample.fresh Sample.lone_surrogate))
    as (p' & Hrun & Hfetched & _ & _ & _ & Herr & _).
  - vm_compute. discriminate.
  - vm_compute. reflexivity.
  - exists p'. split; [exact Hrun|]. split; [exact Hfetched | exact Herr].
Defined.

(** A search that finds a place whose name or country holds markup that
    makes the parser lose the [big-temp] element: both calls are made and
    the place is stored, but [renderCurrent] throws a [TypeError]; both
    regions end empty and the error line shows the generic message. *)
Theorem form_submit_markup_in_name net parse p status r rest status' c d :
  let city := trim (cityInput_value p) in
  let weather := weather_request (latitude r) (longitude r)
                   (unit_param (unitToggle_checked p)) in
  city ≠ [] →
  isWellFormed city = true →
  geocoding net (geocode_request city)
    = Response status (Some (GeoJson (Some (r :: rest)))) →
  ok status = true →
  forecast net weather
    = Response status' (Some (WeatherJson (Some c) d)) →
  ok status' = true →
  has_big_temp parse (heading_of r) = false →
  ∃ p', form_submit net parse p = (inr (), p')
      ∧ lastLocation p' = Some r
      ∧ fetched p' = (fetched p ++ [geocode_request city; weather])%list
      ∧ currentEl p' = empty_html
      ∧ forecastEl p' = empty_html
      ∧ errorEl p' = "Something went wrong fetching weather."
      ∧ console p' = (console p ++ [TypeError])%list.
Proof.
  intros city weather Hcity Hwf Hgeo Hok Hnet Hok' Hb.
  unfold form_submit. run. fold city.
  destruct city as [|ch city'] eqn:Ecity; [done|]. cbn [falsy].
  rewrite (geocodeCity_run _ _ _ Hwf), (geocode_outcome_first _ _ _ _ _ Hgeo Hok).
  run. rewrite fetchWeather_run. fold weather.
  rewrite (weather_outcome_ok _ _ _ _ _ _ Hnet Hok'). run.
  rewrite (renderCurrent_swallowed parse r (WeatherJson (Some c) d) c _ _
             eq_refl Hb). run.
  eexists. split; [reflexivity|]. run. rewrite <- app_assoc. done.
Qed.

Lemma form_submit_markup_in_name_witness :
  ∃ p', form_submit
          (Network (λ _, Response 200 (Some (GeoJson (Some [Sample.comment]))))
                   (λ _, Response 200 (Some Sample.weather)))
          Sample.strict Sample.typed_paris = (inr (), p')
      ∧ lastLocation p' = Some Sample.comment
      ∧ currentEl p' = empty_html
      ∧ errorEl p' = "Something went wrong fetching weather.".
Proof.
  destruct (form_submit_markup_in_name
              (Network (λ _, Response 200 (Some (GeoJson (Some [Sample.comment]))))
                       (λ _, Response 200 (Some Sample.weather)))
              Sample.strict Sample.typed_paris 200 Sample.comment [] 200
              Sample.now (Some Sample.week))
    as (p' & Hrun & Hloc & _ & Hcur & _ & Herr & _).
  - vm_compute. discriminate.
  - vm_compute. reflexivity.
  - reflexivity.
  - vm_compute. reflexivity.
  - reflexivity.
  - vm_compute. reflexivity.
  - vm_compute. reflexivity.
  - exists p'. split; [exact Hrun|]. split; [exact Hloc|].
    split; [exact Hcur | exact Herr].
Defined.
